(** * Attendance tracker and contact book: a shallow embedding

    The two command-line utilities of the repository are embedded as
    functions over character lists.  Python strings are lists of 8-bit
    characters; the string methods ([strip], [title], [lower],
    [splitlines], ...) and the regular-expression classes ([\s], [\d])
    follow Python on the 7-bit range and treat the remaining code points
    as uncased, non-blank, non-digit symbols; a character of a message
    outside that range stands as its UTF-8 bytes.  Dictionaries are
    association lists in insertion order.  Files are fields of a [disk]
    record, opened in append or write mode; an [open] may be refused by
    the operating system, which raises [OSError]. *)

From Stdlib Require Import Ascii String ZArith Lia Bool Arith List.
From Stdlib Require Import Sorted Permutation.
Import ListNotations.

(* ================================================================= *)
(** ** Python strings *)

Definition text := list ascii.

Definition lit (s : string) : text := list_ascii_of_string s.

Definition code (c : ascii) : nat := nat_of_ascii c.

Definition NL : ascii := ascii_of_nat 10.
Definition CR : ascii := ascii_of_nat 13.
Definition SP : ascii := ascii_of_nat 32.

(** [str.isspace] on one character, also the class [\s]. *)
Definition is_space (c : ascii) : bool :=
  ((9 <=? code c) && (code c <=? 13)) || ((28 <=? code c) && (code c <=? 32)).

(** The class [\d]. *)
Definition is_digit (c : ascii) : bool :=
  (48 <=? code c) && (code c <=? 57).

Definition is_lower (c : ascii) : bool :=
  (97 <=? code c) && (code c <=? 122).

Definition is_upper (c : ascii) : bool :=
  (65 <=? code c) && (code c <=? 90).

Definition to_lower (c : ascii) : ascii :=
  if is_upper c then ascii_of_nat (code c + 32) else c.

Definition to_upper (c : ascii) : ascii :=
  if is_lower c then ascii_of_nat (code c - 32) else c.

(** [s.lower()] *)
Definition lower (s : text) : text := map to_lower s.

(** [s.title()]: a cased character is upper-cased when it follows an
    uncased one and lower-cased when it follows a cased one. *)
Fixpoint title_from (prev_cased : bool) (s : text) : text :=
  match s with
  | [] => []
  | c :: r =>
      if is_lower c then
        (if prev_cased then c else to_upper c) :: title_from true r
      else if is_upper c then
        (if prev_cased then to_lower c else c) :: title_from true r
      else c :: title_from false r
  end.

Definition title (s : text) : text := title_from false s.

Fixpoint lstrip (s : text) : text :=
  match s with
  | [] => []
  | c :: r => if is_space c then lstrip r else s
  end.

Definition rstrip (s : text) : text := rev (lstrip (rev s)).

(** [s.strip()] *)
Definition strip (s : text) : text := rstrip (lstrip s).

(** [s.startswith(p)] *)
Fixpoint startswith (s p : text) {struct p} : bool :=
  match p with
  | [] => true
  | a :: p' =>
      match s with
      | [] => false
      | b :: s' => Ascii.eqb b a && startswith s' p'
      end
  end.

Fixpoint text_eqb (a b : text) : bool :=
  match a, b with
  | [], [] => true
  | x :: a', y :: b' => Ascii.eqb x y && text_eqb a' b'
  | _, _ => false
  end.

(** [a <= b] on strings: lexicographic on code points. *)
Fixpoint text_leb (a b : text) : bool :=
  match a, b with
  | [], _ => true
  | _ :: _, [] => false
  | x :: a', y :: b' =>
      if code x <? code y then true
      else if code y <? code x then false
      else text_leb a' b'
  end.

(** [s.ljust(w)] *)
Definition ljust (w : nat) (s : text) : text :=
  s ++ repeat SP (w - length s).

(** [sep.join(ls)] *)
Fixpoint join (sep : text) (ls : list text) : text :=
  match ls with
  | [] => []
  | l :: r =>
      match r with
      | [] => l
      | _ :: _ => l ++ sep ++ join sep r
      end
  end.



(** The line boundaries of [str.splitlines]. *)
Definition is_linebreak (c : ascii) : bool :=
  ((10 <=? code c) && (code c <=? 13)) || ((28 <=? code c) && (code c <=? 30)).

(** [s.splitlines()]: ["\r\n"] is one boundary, and a final boundary
    opens no empty last line. *)
Fixpoint splitlines_from (cur : text) (after_cr : bool) (s : text) : list text :=
  match s with
  | [] => match cur with [] => [] | _ :: _ => [rev cur] end
  | c :: r =>
      if Ascii.eqb c NL && after_cr then splitlines_from cur false r
      else if is_linebreak c then rev cur :: splitlines_from [] (Ascii.eqb c CR) r
      else splitlines_from (c :: cur) false r
  end.

Definition splitlines (s : text) : list text := splitlines_from [] false s.

(** Decimal digits of a natural number, most significant first. *)
Definition digit_char (n : nat) : ascii := ascii_of_nat (48 + n mod 10).

Fixpoint str_digits (fuel n : nat) (acc : text) : text :=
  match fuel with
  | 0 => acc
  | S f =>
      if n <? 10 then digit_char n :: acc
      else str_digits f (n / 10) (digit_char n :: acc)
  end.

(** [str(n)] for a non-negative integer. *)
Definition str_nat (n : nat) : text := str_digits (S n) n [].

(** [str(z)] *)
Definition str_int (z : Z) : text :=
  if (z <? 0)%Z then lit "-" ++ str_nat (Z.to_nat (- z)) else str_nat (Z.to_nat z).

(** [str(n).zfill(w)], the zero-padded fields of [strftime] and [isoformat]. *)
Definition zfill (w n : nat) : text :=
  repeat (ascii_of_nat 48) (w - length (str_nat n)) ++ str_nat n.

(* ================================================================= *)
(** ** Dictionaries and sorting *)

(** A [dict] from strings, in insertion order. *)
Definition dict (V : Type) := list (text * V).

Fixpoint dict_get {V} (d : dict V) (k : text) : option V :=
  match d with
  | [] => None
  | (k', v) :: r => if text_eqb k' k then Some v else dict_get r k
  end.

Definition dict_mem {V} (d : dict V) (k : text) : bool :=
  match dict_get d k with Some _ => true | None => false end.

(** [d[k] = v]: an existing key keeps its place. *)
Fixpoint dict_set {V} (d : dict V) (k : text) (v : V) : dict V :=
  match d with
  | [] => [(k, v)]
  | (k', v') :: r =>
      if text_eqb k' k then (k', v) :: r else (k', v') :: dict_set r k v
  end.

Definition dict_keys {V} (d : dict V) : list text := map fst d.

(** [sorted(xs, key=...)]: a stable sort. *)
Fixpoint insert_by (key : text -> text) (x : text) (l : list text) : list text :=
  match l with
  | [] => [x]
  | y :: r =>
      if text_leb (key x) (key y) then x :: l else y :: insert_by key x r
  end.

Definition sorted_by (key : text -> text) (l : list text) : list text :=
  fold_right (insert_by key) [] l.

(* ================================================================= *)
(** ** The iteration of [re.findall] and [re.split]

    [match_at s] is the length of the match of the pattern anchored at
    the start of [s], if there is one.  The scan tries every position
    from the left and resumes after the end of a match; it returns each
    match with the unmatched text before it, and the unmatched text
    after the last match.  None of the patterns of the program matches
    the empty string. *)

Section Scan.

Variable match_at : text -> option nat.

Fixpoint re_scan (skip : nat) (gap : text) (s : text)
  : list (text * text) * text :=
  match s with
  | [] => ([], rev gap)
  | c :: r =>
      match skip with
      | S k => re_scan k gap r
      | 0 =>
          match match_at s with
          | Some (S n) =>
              let '(hits, rest) := re_scan n [] r in
              ((rev gap, firstn (S n) s) :: hits, rest)
          | _ => re_scan 0 (c :: gap) r
          end
      end
  end.

Definition re_hits (s : text) : list (text * text) * text := re_scan 0 [] s.

End Scan.

(** [re.search]: some position matches. *)
Fixpoint re_search (matches : text -> bool) (s : text) : bool :=
  matches s || match s with [] => false | _ :: r => re_search matches r end.

(* ================================================================= *)
(** ** Dates and times *)

Record date := mkDate { year : nat; month : nat; day : nat }.

Record datetime := mkDateTime
  { dt_date : date; hour : nat; minute : nat; second : nat }.

Definition is_leap (y : nat) : bool :=
  ((y mod 4 =? 0) && negb (y mod 100 =? 0)) || (y mod 400 =? 0).

Definition days_in_month (y m : nat) : nat :=
  match m with
  | 2 => if is_leap y then 29 else 28
  | 4 | 6 | 9 | 11 => 30
  | _ => 31
  end.

(** The values a [datetime.date] can hold. *)
Definition valid_date (d : date) : bool :=
  (1 <=? year d) && (year d <? 100 * 100) &&
  (1 <=? month d) && (month d <=? 12) &&
  (1 <=? day d) && (day d <=? days_in_month (year d) (month d)).

(** [d.isoformat()] *)
Definition isoformat (d : date) : text :=
  zfill 4 (year d) ++ lit "-" ++ zfill 2 (month d) ++ lit "-" ++ zfill 2 (day d).

(** [now.strftime("%Y-%m-%d %H:%M:%S")] *)
Definition strftime_stamp (now : datetime) : text :=
  isoformat (dt_date now) ++ lit " " ++ zfill 2 (hour now) ++ lit ":"
    ++ zfill 2 (minute now) ++ lit ":" ++ zfill 2 (second now).

(* ----------------------------------------------------------------- *)
(** *** [datetime.strptime]

    [strptime] turns the format into a regular expression, matches it at
    the start of the string and refuses the string when no match is found
    or when the match found leaves text unread.  A [matcher] lists the
    ways a pattern matches a prefix, in the order a backtracking engine
    tries them: each gives a value and the unread text. *)

Definition matcher (A : Type) := text -> list (A * text).

Definition m_ret {A} (a : A) : matcher A := fun s => [(a, s)].

Definition m_bind {A B} (m : matcher A) (k : A -> matcher B) : matcher B :=
  fun s => flat_map (fun ar => k (fst ar) (snd ar)) (m s).

Definition m_alt {A} (m1 m2 : matcher A) : matcher A :=
  fun s => m1 s ++ m2 s.

(** One digit whose value lies in [lo..hi]. *)
Definition m_digit (lo hi : nat) : matcher nat :=
  fun s =>
    match s with
    | c :: r =>
        if is_digit c && (lo <=? code c - 48) && (code c - 48 <=? hi)
        then [(code c - 48, r)] else []
    | [] => []
    end.

(** One literal character, compared without case as under
    [re.IGNORECASE]. *)
Definition m_char (a : ascii) : matcher unit :=
  fun s =>
    match s with
    | c :: r => if Ascii.eqb (to_lower c) (to_lower a) then [(tt, r)] else []
    | [] => []
    end.

(** Two digits [a b] with [a] in [alo..ahi] and [b] in [blo..bhi]. *)
Definition m_two (alo ahi blo bhi : nat) : matcher nat :=
  m_bind (m_digit alo ahi) (fun a =>
  m_bind (m_digit blo bhi) (fun b => m_ret (10 * a + b))).

(** [\s*], greedy: the longest run first. *)
Fixpoint m_spaces (s : text) : list (unit * text) :=
  match s with
  | c :: r => if is_space c then m_spaces r ++ [(tt, s)] else [(tt, s)]
  | [] => [(tt, [])]
  end.

(** [\s+], which a blank of the format becomes. *)
Definition m_blank : matcher unit :=
  fun s =>
    match s with
    | c :: r => if is_space c then m_spaces r else []
    | [] => []
    end.

(** [%I]: [1[0-2]|0[1-9]|[1-9]] *)
Definition re_I : matcher nat :=
  m_alt (m_two 1 1 0 2) (m_alt (m_two 0 0 1 9) (m_digit 1 9)).

(** [%H]: [2[0-3]|[0-1]\d|\d] *)
Definition re_H : matcher nat :=
  m_alt (m_two 2 2 0 3) (m_alt (m_two 0 1 0 9) (m_digit 0 9)).

(** [%M]: [[0-5]\d|\d] *)
Definition re_M : matcher nat :=
  m_alt (m_two 0 5 0 9) (m_digit 0 9).

(** [%p]: [am|pm]; the value tells whether it is [pm]. *)
Definition re_p : matcher bool :=
  m_alt (m_bind (m_char "a") (fun _ => m_bind (m_char "m") (fun _ => m_ret false)))
        (m_bind (m_char "p") (fun _ => m_bind (m_char "m") (fun _ => m_ret true))).

(** [%Y]: [\d\d\d\d] *)
Definition re_Y : matcher nat :=
  m_bind (m_two 0 9 0 9) (fun a => m_bind (m_two 0 9 0 9) (fun b =>
  m_ret (100 * a + b))).

(** [%m]: [1[0-2]|0[1-9]|[1-9]] *)
Definition re_m : matcher nat := re_I.

(** [%d]: [3[01]|[12]\d|0[1-9]|[1-9]| [1-9]] *)
Definition re_d : matcher nat :=
  m_alt (m_two 3 3 0 1) (m_alt (m_two 1 2 0 9) (m_alt (m_two 0 0 1 9)
    (m_alt (m_digit 1 9) (m_bind (m_char " ") (fun _ => m_digit 1 9))))).

(** The first match, accepted when it reads the whole string. *)
Definition whole_match {A} (m : matcher A) (s : text) : option A :=
  match m s with
  | (a, []) :: _ => Some a
  | _ => None
  end.

(** The hour of the day from [%I] and [%p]. *)
Definition hour_of_12 (h : nat) (pm : bool) : nat :=
  if pm then (if h =? 12 then 12 else h + 12) else (if h =? 12 then 0 else h).

(** ["%I:%M %p"] *)
Definition fmt_I_M_p : matcher (nat * nat) :=
  m_bind re_I (fun h => m_bind (m_char ":") (fun _ => m_bind re_M (fun mi =>
  m_bind m_blank (fun _ => m_bind re_p (fun pm => m_ret (hour_of_12 h pm, mi)))))).

(** ["%H:%M"] *)
Definition fmt_H_M : matcher (nat * nat) :=
  m_bind re_H (fun h => m_bind (m_char ":") (fun _ => m_bind re_M (fun mi =>
  m_ret (h, mi)))).

(** ["%I:%M%p"] *)
Definition fmt_I_Mp : matcher (nat * nat) :=
  m_bind re_I (fun h => m_bind (m_char ":") (fun _ => m_bind re_M (fun mi =>
  m_bind re_p (fun pm => m_ret (hour_of_12 h pm, mi))))).

(** [dt.strftime("%I:%M %p")] from the hour of the day and the minute. *)
Definition strftime_12h (hm : nat * nat) : text :=
  zfill 2 (if fst hm mod 12 =? 0 then 12 else fst hm mod 12)
    ++ lit ":" ++ zfill 2 (snd hm)
    ++ lit " " ++ (if fst hm <? 12 then lit "AM" else lit "PM").

(** ["%Y-%m-%d"], then the checks of the [date] constructor. *)
Definition fmt_Y_m_d : matcher date :=
  m_bind re_Y (fun y => m_bind (m_char "-") (fun _ => m_bind re_m (fun m =>
  m_bind (m_char "-") (fun _ => m_bind re_d (fun d => m_ret (mkDate y m d)))))).

(** [datetime.strptime(s, "%Y-%m-%d").date()]; [None] is [ValueError]. *)
Definition parse_date (s : text) : option date :=
  match whole_match fmt_Y_m_d s with
  | Some d => if valid_date d then Some d else None
  | None => None
  end.

(** [int(s)] in base ten: blanks around, a sign, digits that single
    underscores may separate; [None] is [ValueError]. *)
Fixpoint int_digits (acc : Z) (s : text) : option Z :=
  match s with
  | [] => Some acc
  | c :: r =>
      if is_digit c then int_digits (10 * acc + Z.of_nat (code c - 48)) r
      else if Ascii.eqb c "_" then
        match r with
        | d :: _ => if is_digit d then int_digits acc r else None
        | [] => None
        end
      else None
  end.

Definition int_unsigned (s : text) : option Z :=
  match s with
  | c :: _ => if is_digit c then int_digits 0 s else None
  | [] => None
  end.

Definition py_int (s : text) : option Z :=
  match strip s with
  | c :: r =>
      if Ascii.eqb c "-" then option_map Z.opp (int_unsigned r)
      else if Ascii.eqb c "+" then int_unsigned r
      else int_unsigned (c :: r)
  | [] => None
  end.

(* ================================================================= *)
(** ** Exceptions, files and the console *)

Inductive exn := EOFError | OSError | ValueError | KeyError.

Inductive result (A : Type) :=
| Ok (a : A)
| Raise (e : exn).

Arguments Ok {A} a.
Arguments Raise {A} e.

(** The elements of a report document. *)
Inductive flowable :=
| Paragraph (style : text) (body : text)
| Spacer (height : nat)
| Table (data : list (list text)) (backgrounds : list (nat * text))
| PageBreak.

Inductive path := ARCHIVE | EXPORT_FILE | CSV_LOG | OUT_PDF | ROSTER_FILE.

(** The files under [ATT_DIR].  [None] is a file that does not exist.
    The CSV log is held as the rows the [csv] module writes and reads
    back; [refused p] tells whether opening [p] raises [OSError]. *)
Record disk := mkDisk
  { archive : option text;
    export_file : option text;
    csv_log : option (list (list text));
    out_pdf : option (list flowable);
    roster_file : option text;
    refused : path -> bool }.

Definition set_archive (d : disk) (t : text) : disk :=
  mkDisk (Some t) (export_file d) (csv_log d) (out_pdf d) (roster_file d) (refused d).

Definition set_export_file (d : disk) (t : text) : disk :=
  mkDisk (archive d) (Some t) (csv_log d) (out_pdf d) (roster_file d) (refused d).

Definition set_csv_log (d : disk) (rows : list (list text)) : disk :=
  mkDisk (archive d) (export_file d) (Some rows) (out_pdf d) (roster_file d) (refused d).

Definition set_out_pdf (d : disk) (story : list flowable) : disk :=
  mkDisk (archive d) (export_file d) (csv_log d) (Some story) (roster_file d) (refused d).

Definition set_roster_file (d : disk) (t : text) : disk :=
  mkDisk (archive d) (export_file d) (csv_log d) (out_pdf d) (Some t) (refused d).

(** What a text file holds when it is opened in append mode. *)
Definition text_or_empty (f : option text) : text :=
  match f with Some t => t | None => [] end.

(** The console and the clock around the files. *)
Record world := mkWorld
  { files : disk; stdin : list text; stdout : list text; clock : datetime }.

(** A command runs in a world and returns or raises. *)
Definition io (A : Type) := world -> result A * world.

Definition ret {A} (a : A) : io A := fun w => (Ok a, w).

Definition bind {A B} (m : io A) (k : A -> io B) : io B :=
  fun w =>
    match m w with
    | (Ok a, w') => k a w'
    | (Raise e, w') => (Raise e, w')
    end.

Notation "x <- m ;; k" := (bind m (fun x => k))
  (at level 61, m at next level, right associativity).

Notation "m ;;; k" := (bind m (fun _ => k))
  (at level 61, right associativity).

(** [try: m  except Exception as e: handler e] *)
Definition try_except {A} (m : io A) (handler : exn -> io A) : io A :=
  fun w =>
    match m w with
    | (Ok a, w') => (Ok a, w')
    | (Raise e, w') => handler e w'
    end.

(** [print(msg)] *)
Definition print (msg : text) : io unit :=
  fun w => (Ok tt, mkWorld (files w) (stdin w) (stdout w ++ [msg]) (clock w)).

(** [input(prompt)]: the end of the input raises [EOFError]. *)
Definition input (prompt : text) : io text :=
  fun w =>
    match stdin w with
    | [] => (Raise EOFError, mkWorld (files w) [] (stdout w ++ [prompt]) (clock w))
    | l :: r => (Ok l, mkWorld (files w) r (stdout w ++ [prompt]) (clock w))
    end.

(** [datetime.now()] *)
Definition get_now : io datetime := fun w => (Ok (clock w), w).

(** [date.today()] *)
Definition get_today : io date := fun w => (Ok (dt_date (clock w)), w).

(** A function that writes files. *)
Definition on_disk (op : disk -> result disk) : io unit :=
  fun w =>
    match op (files w) with
    | Ok d' => (Ok tt, mkWorld d' (stdin w) (stdout w) (clock w))
    | Raise e => (Raise e, w)
    end.

(** A function that reads files. *)
Definition from_disk {A} (op : disk -> result A) : io A :=
  fun w =>
    match op (files w) with
    | Ok a => (Ok a, w)
    | Raise e => (Raise e, w)
    end.

(** [while True:] around a body that opens with [input(prompt)]: on the
    line read, [step] gives what the body prints and either the value it
    leaves the loop with or nothing, for another round. *)
Fixpoint prompt_loop {A} (prompt : text) (step : text -> list text * option A)
    (ins : list text) (out : list text) : result A * list text * list text :=
  match ins with
  | [] => (Raise EOFError, [], out ++ [prompt])
  | l :: r =>
      match snd (step l) with
      | Some a => (Ok a, r, out ++ [prompt] ++ fst (step l))
      | None => prompt_loop prompt step r (out ++ [prompt] ++ fst (step l))
      end
  end.

Definition ask {A} (prompt : text) (step : text -> list text * option A) : io A :=
  fun w =>
    let '(res, ins, out) := prompt_loop prompt step (stdin w) (stdout w) in
    (res, mkWorld (files w) ins out (clock w)).

(** [str(e)] of an exception. *)
Definition exn_text (e : exn) : text :=
  match e with
  | EOFError => lit "EOF when reading a line"
  | OSError => lit "[Errno 13] Permission denied"
  | ValueError => lit "invalid value"
  | KeyError => lit "key"
  end.

(* ================================================================= *)
(** ** Utility functions ([tracker.py]) *)

(** [parse_time]: the three formats are tried in order. *)
Definition parse_time (timestr : text) : result text :=
  let timestr := strip timestr in
  match whole_match fmt_I_M_p timestr with
  | Some hm => Ok (strftime_12h hm)
  | None =>
      match whole_match fmt_H_M timestr with
      | Some hm => Ok (strftime_12h hm)
      | None =>
          match whole_match fmt_I_Mp timestr with
          | Some hm => Ok (strftime_12h hm)
          | None => Raise ValueError
          end
      end
  end.

Definition input_positive_int (prompt : text) : io Z :=
  ask prompt (fun line =>
    match py_int line with
    | Some n =>
        if (n <=? 0)%Z then ([lit "Please enter a positive integer."], None)
        else ([], Some n)
    | None => ([lit "Please enter a valid integer (e.g., 5)."], None)
    end).

Definition ask_yes_no (prompt : text) : io bool :=
  line <- input prompt ;;
  ret (text_eqb (lower (strip line)) (lit "y")
       || text_eqb (lower (strip line)) (lit "yes")).

(* ================================================================= *)
(** ** Archive and CSV helpers ([tracker.py]) *)

Definition colw : nat := 28.

Definition section_prefix : text := lit "=== Attendance for: ".

Definition section_header (iso : text) : text :=
  section_prefix ++ iso ++ lit " ===".

(** [attendance[nm]] for a key of [attendance]. *)
Definition dict_item (d : dict text) (k : text) : text :=
  match dict_get d k with Some v => v | None => [] end.

(** [sorted(attendance.keys(), key=lambda s: s.lower())] *)
Definition sorted_names (attendance : dict text) : list text :=
  sorted_by lower (dict_keys attendance).

Definition dashes : text := repeat (ascii_of_nat 45) (colw + 16).

Definition section_rows (attendance : dict text) : list text :=
  map (fun nm => ljust colw nm ++ dict_item attendance nm) (sorted_names attendance).

Definition section_totals (present : nat) (total_strength absent : Z) : list text :=
  [ lit "Total Students Present: " ++ str_nat present;
    lit "Total Students (Class Strength): " ++ str_int total_strength;
    lit "Total Absent: " ++ str_int absent ].

(** The [lines] of [write_archive_section]. *)
Definition section_lines (for_date : date) (stamp : text) (attendance : dict text)
    (total_strength absent : Z) : list text :=
  [ section_header (isoformat for_date);
    lit "Generated at: " ++ stamp;
    [];
    ljust colw (lit "Student Name") ++ lit "Check-in Time";
    dashes ]
  ++ section_rows attendance
  ++ [ dashes ]
  ++ section_totals (length attendance) total_strength absent
  ++ [ [] ].

Definition section_text (for_date : date) (stamp : text) (attendance : dict text)
    (total_strength absent : Z) : text :=
  join [NL] (section_lines for_date stamp attendance total_strength absent) ++ [NL].

(** [write_archive_section]: the file is opened in append mode. *)
Definition write_archive_section (for_date : date) (stamp : text)
    (attendance : dict text) (total_strength absent : Z) (d : disk) : result disk :=
  if refused d ARCHIVE then Raise OSError
  else Ok (set_archive d
             (text_or_empty (archive d)
                ++ section_text for_date stamp attendance total_strength absent)).

Definition csv_header : list text :=
  [ lit "generated_at"; lit "date"; lit "student_name"; lit "check_in_time" ].

Definition csv_rows (for_date : date) (stamp : text) (attendance : dict text)
  : list (list text) :=
  map (fun nm => [ stamp; isoformat for_date; nm; dict_item attendance nm ])
      (sorted_names attendance).

(** [append_csv_rows]: the header row is written when the file is new. *)
Definition append_csv_rows (for_date : date) (stamp : text)
    (attendance : dict text) (d : disk) : result disk :=
  if refused d CSV_LOG then Raise OSError
  else
    match csv_log d with
    | Some rows => Ok (set_csv_log d (rows ++ csv_rows for_date stamp attendance))
    | None => Ok (set_csv_log d (csv_header :: csv_rows for_date stamp attendance))
    end.

(* ----------------------------------------------------------------- *)
(** *** [find_sections_by_date] *)

(** The lookahead [(?=\n=== Attendance for: |\Z)]. *)
Definition lookahead : text := NL :: section_prefix.

(** The lazy group [(.*?)] under [re.DOTALL]: the shortest text after
    which the lookahead holds. *)
Fixpoint lazy_body (s : text) : text :=
  if startswith s lookahead then []
  else match s with
       | [] => []
       | c :: r => c :: lazy_body r
       end.

(** The head of the pattern: the escaped date is matched literally. *)
Definition section_head (iso : text) : text := section_header iso ++ [NL].

Definition section_match (iso : text) (s : text) : option nat :=
  if startswith s (section_head iso) then
    Some (length (section_head iso)
          + length (lazy_body (skipn (length (section_head iso)) s)))
  else None.

(** The list [sections] built from the groups of [re.findall]. *)
Definition sections_of (content : text) (target_date : date) : list text :=
  let iso := isoformat target_date in
  map (fun hit => section_head iso
                    ++ strip (skipn (length (section_head iso)) (snd hit)) ++ [NL])
      (fst (re_hits (section_match iso) content)).

Definition find_sections_by_date (target_date : date) (d : disk)
  : result (list text) :=
  match archive d with
  | None => Ok []
  | Some content =>
      if refused d ARCHIVE then Raise OSError
      else Ok (sections_of content target_date)
  end.

(** The call of [record_attendance_flow] that appends a section: the
    stamp is the current time and [absent = total - present_count]. *)
Definition appendSection (for_date : date) (now : datetime)
    (attendance : dict text) (total : Z) (d : disk) : result disk :=
  write_archive_section for_date (strftime_stamp now) attendance total
    (total - Z.of_nat (length attendance)) d.

(* ================================================================= *)
(** ** Recording and querying flows ([tracker.py]) *)

Definition archive_path : text := lit "attendance_tracker/attendance_archive.txt".
Definition csv_path : text := lit "attendance_tracker/attendance_log.csv".
Definition export_path : text := lit "attendance_tracker/student_attendance_record.txt".

(** The loop that asks for a student name. *)
Definition name_step (attendance : dict text) (line : text)
  : list text * option text :=
  let raw_name := strip line in
  if text_eqb raw_name [] then
    ([lit "Name cannot be empty. Please try again."], None)
  else
    let name := title raw_name in
    if existsb (text_eqb (lower name)) (map lower (dict_keys attendance)) then
      ([lit "Student '" ++ name
          ++ lit "' already exists. Please enter a different name."], None)
    else ([], Some name).

(** The loop that asks for a check-in time. *)
Definition time_step (line : text) : list text * option text :=
  let check_in_raw := strip line in
  if text_eqb check_in_raw [] then
    ([lit "Time cannot be empty. Please try again."], None)
  else
    match parse_time check_in_raw with
    | Ok check_in => ([], Some check_in)
    | Raise _ =>
        ([lit "Invalid time format. Use e.g., '09:15 AM' or '09:15' (24-hour)."],
         None)
    end.

(** The loop that asks for the class strength. *)
Definition strength_step (present_count : nat) (line : text)
  : list text * option Z :=
  match py_int line with
  | Some total =>
      if (total <? Z.of_nat present_count)%Z then
        ([lit "Total class strength cannot be less than present ("
            ++ str_nat present_count ++ lit "). Try again."], None)
      else ([], Some total)
  | None => ([lit "Please enter a valid integer."], None)
  end.

(** [for i in range(count)], from round [i] with [todo] rounds left. *)
Fixpoint record_entries (todo i : nat) (attendance : dict text)
  : io (dict text) :=
  match todo with
  | 0 => ret attendance
  | S todo' =>
      name <- ask (lit "Student name " ++ str_nat (i + 1) ++ lit ": ")
                  (name_step attendance) ;;
      check_in <- ask (lit "Enter the time for " ++ name
                         ++ lit " (e.g., 09:15 AM or 09:15): ") time_step ;;
      record_entries todo' (S i) (dict_set attendance name check_in)
  end.

Fixpoint print_all (msgs : list text) : io unit :=
  match msgs with
  | [] => ret tt
  | m :: r => print m ;;; print_all r
  end.

Definition record_attendance_flow : io unit :=
  print (NL :: lit "--- Record Attendance ---") ;;;
  line <- input (lit "Enter date (YYYY-MM-DD) or press Enter for today: ") ;;
  for_date <-
    (if text_eqb (strip line) [] then get_today
     else match parse_date (strip line) with
          | Some d => ret d
          | None => print (lit "Invalid date format. Using today's date.") ;;;
                    get_today
          end) ;;
  count <- input_positive_int
             (lit "How many students' attendance records do you want to record? ") ;;
  attendance <- record_entries (Z.to_nat count) 0 [] ;;
  print (NL :: lit "Summary for " ++ isoformat for_date) ;;;
  print (NL :: ljust colw (lit "Student Name") ++ lit "Check-in Time") ;;;
  print dashes ;;;
  print_all (section_rows attendance) ;;;
  print dashes ;;;
  print (lit "Total Students Present: " ++ str_nat (length attendance)) ;;;
  total <- ask (NL :: lit "Total class strength: ")
               (strength_step (length attendance)) ;;
  print (lit "Total Present: " ++ str_nat (length attendance)) ;;;
  print (lit "Total Absent: " ++ str_int (total - Z.of_nat (length attendance))) ;;;
  now <- get_now ;;
  try_except
    (on_disk (appendSection for_date now attendance total) ;;;
     print (NL :: lit "✅ Attendance appended to archive: '" ++ archive_path ++ lit "'."))
    (fun e => print (lit "⚠️ Could not write to archive: " ++ exn_text e)) ;;;
  yes <- ask_yes_no (lit "Also append rows to CSV archive? (yes/no): ") ;;
  if yes then
    try_except
      (on_disk (append_csv_rows for_date (strftime_stamp now) attendance) ;;;
       print (lit "✅ CSV appended: '" ++ csv_path ++ lit "'"))
      (fun e => print (lit "⚠️ CSV write failed: " ++ exn_text e))
  else ret tt.

(** [enumerate(sections, start=idx)] and the two prints of the loop. *)
Fixpoint print_found (idx : nat) (iso : text) (sections : list text) : io unit :=
  match sections with
  | [] => ret tt
  | sec :: r =>
      print (NL :: lit "--- Found record #" ++ str_nat idx ++ lit " for "
               ++ iso ++ lit " ---") ;;;
      print sec ;;;
      print_found (S idx) iso r
  end.

(** [open(EXPORT_FILE, "w")] and [f.write(combined)]. *)
Definition write_export (combined : text) (d : disk) : result disk :=
  if refused d EXPORT_FILE then Raise OSError
  else Ok (set_export_file d combined).

(** The part of [query_by_date_flow] after the date is known. *)
Definition query_sections (target_date : date) : io unit :=
  sections <- from_disk (find_sections_by_date target_date) ;;
  match sections with
  | [] => print (lit "No records found for " ++ isoformat target_date ++ lit ".")
  | _ :: _ =>
      print_found 1 (isoformat target_date) sections ;;;
      yes <- ask_yes_no
               (NL :: lit "Do you want to export the above date's log into 'student_attendance_record.txt'? (this will OVERWRITE that file): ") ;;
      if yes then
        try_except
          (on_disk (write_export (join [NL] sections)) ;;;
           print (NL :: lit "✅ Export successful: '" ++ export_path ++ lit "' written."))
          (fun e => print (lit "⚠️ Export failed: " ++ exn_text e))
      else print (lit "Export skipped.")
  end.

Definition query_by_date_flow : io unit :=
  print (NL :: lit "--- Query Attendance by Date ---") ;;;
  line <- input (lit "Enter date to query (YYYY-MM-DD) or 'today': ") ;;
  if text_eqb (lower (strip line)) (lit "today") then
    target_date <- get_today ;; query_sections target_date
  else
    match parse_date (strip line) with
    | Some target_date => query_sections target_date
    | None => print (lit "Invalid date format. Please use YYYY-MM-DD.")
    end.

(* ================================================================= *)
(** ** PDF generation ([tracker.py]) *)

(** [dict(zip(fieldnames, row)).get(key)] of [csv.DictReader]: a later
    column of the same name wins, a missing column gives [None]. *)
Fixpoint zip_get (fieldnames row : list text) (key : text) (found : option text)
  : option text :=
  match fieldnames, row with
  | f :: fs, v :: vs =>
      zip_get fs vs key (if text_eqb f key then Some v else found)
  | _, _ => found
  end.

(** [(r.get(key) or "")] *)
Definition row_get (fieldnames row : list text) (key : text) : text :=
  match zip_get fieldnames row key None with Some v => v | None => [] end.

(** [per_date[dt][name] = time] on a [defaultdict(dict)]. *)
Definition assign (per_date : dict (dict text)) (dt name time : text)
  : dict (dict text) :=
  dict_set per_date dt
    (dict_set (match dict_get per_date dt with Some m => m | None => [] end)
              name time).

(** The body of the loop of [read_from_csv]; the reader skips empty rows. *)
Definition csv_row_step (fieldnames : list text) (per_date : dict (dict text))
    (row : list text) : dict (dict text) :=
  match row with
  | [] => per_date
  | _ :: _ =>
      let dt := strip (row_get fieldnames row (lit "date")) in
      let name := title (strip (row_get fieldnames row (lit "student_name"))) in
      let time := strip (row_get fieldnames row (lit "check_in_time")) in
      if text_eqb dt [] || text_eqb name [] then per_date
      else assign per_date dt name time
  end.

(** The first row gives the field names. *)
Definition read_csv_rows (rows : list (list text)) : dict (dict text) :=
  match rows with
  | [] => []
  | fieldnames :: data => fold_left (csv_row_step fieldnames) data []
  end.

Definition read_from_csv (d : disk) : result (dict (dict text)) :=
  match csv_log d with
  | None => Ok []
  | Some rows =>
      if refused d CSV_LOG then Raise OSError else Ok (read_csv_rows rows)
  end.

(** [\d{4}-\d{2}-\d{2}] on a text of ten characters. *)
Definition is_iso_date (t : text) : bool :=
  match t with
  | [y1; y2; y3; y4; d1; m1; m2; d2; a1; a2] =>
      is_digit y1 && is_digit y2 && is_digit y3 && is_digit y4
      && Ascii.eqb d1 "-" && is_digit m1 && is_digit m2
      && Ascii.eqb d2 "-" && is_digit a1 && is_digit a2
  | _ => false
  end.

(** [=== Attendance for: (\d{4}-\d{2}-\d{2}) ===] *)
Definition date_header_match (s : text) : option nat :=
  if startswith s section_prefix
     && is_iso_date (firstn 10 (skipn 20 s))
     && startswith (skipn 30 s) (lit " ===")
  then Some 34 else None.

(** The list of [re.split] with one group: the text before the first
    match, then each group with the text that follows its match. *)
Fixpoint pair_up (hits : list (text * text)) (tail : text)
  : text * list (text * text) :=
  match hits with
  | [] => (tail, [])
  | (gap, m) :: r =>
      (gap, (firstn 10 (skipn 20 m), fst (pair_up r tail)) :: snd (pair_up r tail))
  end.

Definition split_sections (txt : text) : text * list (text * text) :=
  pair_up (fst (re_hits date_header_match txt)) (snd (re_hits date_header_match txt)).

Fixpoint blank_run (s : text) : nat :=
  match s with
  | c :: r => if is_space c then S (blank_run r) else 0
  | [] => 0
  end.

(** [\s{2,}] *)
Definition blanks_match (s : text) : option nat :=
  if 2 <=? blank_run s then Some (blank_run s) else None.

(** [re.split(r"\s{2,}", s)] *)
Definition split_blanks (s : text) : list text :=
  map fst (fst (re_hits blanks_match s)) ++ [snd (re_hits blanks_match s)].

(** [\d{2}:\d{2}] at the start. *)
Definition hhmm_at (s : text) : bool :=
  match s with
  | a :: b :: c :: d :: e :: _ =>
      is_digit a && is_digit b && Ascii.eqb c ":" && is_digit d && is_digit e
  | _ => false
  end.

(** [AM|PM] at the start, without case. *)
Definition ampm_at (s : text) : bool :=
  match s with
  | a :: b :: _ =>
      (Ascii.eqb (to_lower a) "a" || Ascii.eqb (to_lower a) "p")
      && Ascii.eqb (to_lower b) "m"
  | _ => false
  end.

(** The body of the inner loop of [read_from_archive]. *)
Definition archive_line_step (date_str : text) (per_date : dict (dict text))
    (line : text) : dict (dict text) :=
  if text_eqb (strip line) [] then per_date
  else if forallb (fun c => Ascii.eqb c "-") (strip line) then per_date
  else if startswith (strip line) (lit "Generated at")
          || startswith (strip line) (lit "Student Name")
          || startswith (strip line) (lit "Total") then per_date
  else
    let parts := split_blanks (strip line) in
    if 2 <=? length parts then
      let name := title (strip (hd [] parts)) in
      let time := strip (last parts []) in
      if re_search hhmm_at time || re_search ampm_at time || text_eqb time [] then
        if text_eqb name [] then per_date else assign per_date date_str name time
      else per_date
    else per_date.

Definition read_archive_text (txt : text) : dict (dict text) :=
  fold_left
    (fun per_date sec =>
       fold_left (archive_line_step (strip (fst sec))) (splitlines (snd sec))
                 per_date)
    (snd (split_sections txt)) [].

Definition read_from_archive (d : disk) : result (dict (dict text)) :=
  match archive d with
  | None => Ok []
  | Some txt =>
      if refused d ARCHIVE then Raise OSError else Ok (read_archive_text txt)
  end.

(** One row of the table of a date. *)
Definition table_row (date_entries : dict text) (name : text) : list text :=
  if dict_mem date_entries name then
    let time := match dict_get date_entries name with Some t => t | None => [] end in
    [ name; lit "Present"; match time with [] => lit "-" | _ :: _ => time end ]
  else [ name; lit "Absent"; lit "-" ].

Definition table_data (roster : list text) (date_entries : dict text)
  : list (list text) :=
  [ lit "Student Name"; lit "Status"; lit "Check-in Time" ]
    :: map (table_row date_entries) roster.

(** The background of the header row and of each row after it. *)
Fixpoint row_backgrounds (row_idx : nat) (rows : list (list text))
  : list (nat * text) :=
  match rows with
  | [] => []
  | row :: r =>
      (row_idx,
       if text_eqb (lower (nth 1 row [])) (lit "present")
       then lit "#e6f4ea" else lit "#fdecea")
        :: row_backgrounds (S row_idx) r
  end.

Definition date_table (roster : list text) (date_entries : dict text) : flowable :=
  Table (table_data roster date_entries)
        ((0, lit "#D3D3D3") :: row_backgrounds 1 (tl (table_data roster date_entries))).

(** [for idx, dt in enumerate(ordered_dates, start=idx)] *)
Fixpoint date_flowables (idx : nat) (ordered_dates roster : list text)
    (per_date_map : dict (dict text)) : list flowable :=
  match ordered_dates with
  | [] => []
  | dt :: r =>
      [ Paragraph (lit "Heading2") (str_nat idx ++ lit ". Date: " ++ dt);
        Spacer 6;
        date_table roster
          (match dict_get per_date_map dt with Some m => m | None => [] end);
        Spacer 12 ]
      ++ (if idx mod 3 =? 0 then [PageBreak] else [])
      ++ date_flowables (S idx) r roster per_date_map
  end.

(** The [story] that [make_colored_pdf] builds. *)
Definition pdf_story (now : datetime) (ordered_dates roster : list text)
    (per_date_map : dict (dict text)) : list flowable :=
  [ Paragraph (lit "Title") (lit "Full Date-wise Attendance List");
    Paragraph (lit "Normal") (lit "Generated at: " ++ strftime_stamp now);
    Spacer 12 ]
  ++ match ordered_dates, roster with
     | _ :: _, _ :: _ => date_flowables 1 ordered_dates roster per_date_map
     | _, _ =>
         [ Paragraph (lit "Normal")
             (lit "No attendance data found in CSV or archive.") ]
     end.

(** [doc.build(story)] *)
Definition build_pdf (story : list flowable) (d : disk) : result disk :=
  if refused d OUT_PDF then Raise OSError else Ok (set_out_pdf d story).

Definition out_pdf_path : text := lit "attendance_tracker/full_date_list.pdf".

Definition make_colored_pdf (ordered_dates roster : list text)
    (per_date_map : dict (dict text)) : io unit :=
  now <- get_now ;;
  on_disk (build_pdf (pdf_story now ordered_dates roster per_date_map)) ;;;
  match ordered_dates, roster with
  | _ :: _, _ :: _ => print (lit "✅ Colored PDF created: " ++ out_pdf_path)
  | _, _ => print (lit "PDF generated (but no data found).")
  end.


(* ================================================================= *)
(** ** Roster management ([tracker.py]) *)

(** [list(dict.fromkeys(names))]: each name once, at its first place. *)
Definition fromkeys (names : list text) : list text :=
  dict_keys (fold_left (fun d n => dict_set d n tt) names []).

(** The names [load_roster] takes from the lines of the file. *)
Fixpoint roster_lines (lines : list text) : list text :=
  match lines with
  | [] => []
  | ln :: r =>
      if text_eqb (strip ln) [] then roster_lines r
      else title (strip ln) :: roster_lines r
  end.

Definition load_roster (d : disk) : result (list text) :=
  match roster_file d with
  | None => Ok []
  | Some t =>
      if refused d ROSTER_FILE then Raise OSError
      else Ok (sorted_by lower (fromkeys (roster_lines (splitlines t))))
  end.

Definition roster_path : text := lit "attendance_tracker/roster.txt".

(** [ROSTER_FILE.write_text(...)] *)
Definition write_roster (names : list text) (d : disk) : result disk :=
  if refused d ROSTER_FILE then Raise OSError
  else Ok (set_roster_file d (join [NL] names)).

Definition save_roster (names : list text) : io unit :=
  on_disk (write_roster names) ;;;
  print (lit "Roster saved to '" ++ roster_path ++ lit "' ("
           ++ str_nat (length names) ++ lit " students).").

(** The inner loop of option 4: names are read up to an empty line. *)
Fixpoint read_bulk (ins : list text) (new : list text)
  : result (list text) * list text :=
  match ins with
  | [] => (Raise EOFError, [])
  | l :: r =>
      if text_eqb (strip l) [] then (Ok new, r)
      else read_bulk r (new ++ [title (strip l)])
  end.

Definition bulk_input : io (list text) :=
  fun w =>
    let '(res, ins) := read_bulk (stdin w) [] in
    (res, mkWorld (files w) ins (stdout w) (clock w)).

(** [roster.remove(nm)] for a name of the list. *)
Fixpoint remove_first (nm : text) (roster : list text) : list text :=
  match roster with
  | [] => []
  | x :: r => if text_eqb x nm then r else x :: remove_first nm r
  end.

(** [for idx, nm in enumerate(roster, start=idx): print(f"{idx}. {nm}")] *)
Fixpoint print_numbered (idx : nat) (roster : list text) : io unit :=
  match roster with
  | [] => ret tt
  | nm :: r => print (str_nat idx ++ lit ". " ++ nm) ;;; print_numbered (S idx) r
  end.

Definition editor_options : text :=
  NL :: lit "Options: 1) Add student  2) Remove student  3) View all  4) Replace roster (bulk)  5) Save & Exit  6) Cancel".

(** [while True:] around a body that ends with [break] ([None]) or goes
    round again with a new state.  The loops of the program read a line in
    every round, so a number of rounds above the number of lines left is
    never used up ([while_true_rounds]). *)
Fixpoint loop_rounds {St} (rounds : nat) (body : St -> io (option St)) (s : St)
  : io unit :=
  match rounds with
  | 0 => fun w => (Raise EOFError, w)
  | S rounds' =>
      r <- body s ;;
      match r with
      | Some s' => loop_rounds rounds' body s'
      | None => ret tt
      end
  end.

Definition while_true {St} (body : St -> io (option St)) (s : St) : io unit :=
  fun w => loop_rounds (S (length (stdin w))) body s w.

(** One round of the loop of [interactive_roster_editor]. *)
Definition editor_round (roster : list text) : io (option (list text)) :=
  print editor_options ;;;
  line <- input (lit "Choose [1-6]: ") ;;
  let ch := strip line in
  if text_eqb ch (lit "1") then
    l <- input (lit "Enter student name to ADD: ") ;;
    let nm := title (strip l) in
    if text_eqb nm [] then
      print (lit "Empty name ignored.") ;;; ret (Some roster)
    else if existsb (text_eqb nm) roster then
      print (lit "Already exists.") ;;; ret (Some roster)
    else
      print (lit "Added: " ++ nm) ;;;
      ret (Some (sorted_by lower (roster ++ [nm])))
  else if text_eqb ch (lit "2") then
    l <- input (lit "Enter student name to REMOVE: ") ;;
    let nm := title (strip l) in
    if existsb (text_eqb nm) roster then
      print (lit "Removed: " ++ nm) ;;; ret (Some (remove_first nm roster))
    else
      print (lit "Name not found in roster.") ;;; ret (Some roster)
  else if text_eqb ch (lit "3") then
    match roster with
    | [] => print (lit "Roster empty.")
    | _ :: _ => print (lit "Roster:") ;;; print_numbered 1 roster
    end ;;;
    ret (Some roster)
  else if text_eqb ch (lit "4") then
    print (lit "Enter names one per line. Empty line to stop.") ;;;
    new <- bulk_input ;;
    print (lit "Roster replaced.") ;;;
    ret (Some (sorted_by lower (fromkeys new)))
  else if text_eqb ch (lit "5") then save_roster roster ;;; ret None
  else if text_eqb ch (lit "6") then print (lit "Roster edit canceled.") ;;; ret None
  else print (lit "Invalid option.") ;;; ret (Some roster).

Definition interactive_roster_editor : io unit :=
  print (NL :: lit "--- Roster Manager ---") ;;;
  roster <- from_disk load_roster ;;
  print (lit "Current roster count: " ++ str_nat (length roster)) ;;;
  match roster with
  | [] => ret tt
  | _ :: _ =>
      print (join (lit ", ") (firstn 10 roster)
               ++ (if 10 <? length roster then lit "..." else []))
  end ;;;
  while_true editor_round roster.

(* ================================================================= *)
(** ** The report flow and the menu ([tracker.py]) *)

(** The names of all dates, then those of the roster file: what
    [build_master] puts into the set [roster]. *)
Definition master_names (per_date_map : dict (dict text)) (file_roster : list text)
  : list text :=
  concat (map (fun kv => dict_keys (snd kv)) per_date_map) ++ file_roster.

(** [build_master]: the elements of the set are taken in the order of
    their first insertion; [master_roster_any_order] shows that the sorted
    roster is the same for every order. *)
Definition build_master (per_date_map : dict (dict text)) (d : disk)
  : result (list text * list text * dict (dict text)) :=
  match load_roster d with
  | Ok file_roster =>
      Ok (sorted_by (fun s => s) (dict_keys per_date_map),
          sorted_by lower (fromkeys (master_names per_date_map file_roster)),
          per_date_map)
  | Raise e => Raise e
  end.

Definition generate_full_pdf_flow : io unit :=
  print (NL :: lit "--- Generate Full Date-wise PDF (colored) ---") ;;;
  per_date <- from_disk read_from_csv ;;
  per_date <- match per_date with
              | [] => from_disk read_from_archive
              | _ :: _ => ret per_date
              end ;;
  match per_date with
  | [] => print (lit "No attendance data found in CSV or archive. Nothing to generate.")
  | _ :: _ =>
      master <- from_disk (build_master per_date) ;;
      let '(ordered_dates, roster, data) := master in
      make_colored_pdf ordered_dates roster data
  end.

Definition menu_lines : list text :=
  [ NL :: lit "Select an option:";
    lit "1) Record attendance (new)";
    lit "2) Query attendance by date (and export to student_attendance_record.txt)";
    lit "3) Manage roster (load/edit/save)";
    lit "4) Generate Full Date-wise PDF (colored) [full_date_list.pdf]";
    lit "5) Exit" ].

(** One round of the loop of [main_menu]. *)
Definition menu_round (_ : unit) : io (option unit) :=
  print_all menu_lines ;;;
  line <- input (lit "Enter 1 / 2 / 3 / 4 / 5: ") ;;
  let choice := strip line in
  if text_eqb choice (lit "1") then record_attendance_flow ;;; ret (Some tt)
  else if text_eqb choice (lit "2") then query_by_date_flow ;;; ret (Some tt)
  else if text_eqb choice (lit "3") then interactive_roster_editor ;;; ret (Some tt)
  else if text_eqb choice (lit "4") then generate_full_pdf_flow ;;; ret (Some tt)
  else if text_eqb choice (lit "5") then print (lit "Goodbye!") ;;; ret None
  else print (lit "Invalid choice. Please choose 1-5.") ;;; ret (Some tt).

Definition main_menu : io unit :=
  print (lit "Welcome to the Attendance Tracker System (Merged - Full Features)!") ;;;
  while_true menu_round tt.

(* ----------------------------------------------------------------- *)
(** *** Notions used in the statements *)












(** Every way the matcher matches gives a value in [P]. *)
Definition m_all {A} (P : A -> Prop) (m : matcher A) : Prop :=
  forall s v r, In (v, r) (m s) -> P v.

(** The character [title] puts in the place of [c]. *)
Definition title_char (b : bool) (c : ascii) : ascii :=
  if is_lower c then (if b then c else to_upper c)
  else if is_upper c then (if b then to_lower c else c) else c.

Definition title_state (b : bool) (c : ascii) : bool :=
  is_lower c || is_upper c.


(** A command that leaves the files and the clock as they are and only
    reads lines from the input. *)
Definition steady {A} (m : io A) : Prop :=
  forall w r w', m w = (r, w') ->
    files w' = files w /\ clock w' = clock w
    /\ exists used, stdin w = used ++ stdin w'.


(** An hour of the day and a minute. *)
Definition clock_time (hm : nat * nat) : Prop := fst hm < 24 /\ snd hm < 60.




(* ----------------------------------------------------------------- *)
(** *** Sample data *)

Definition demo_date : date := mkDate 2025 11 20.

Definition demo_now : datetime := mkDateTime demo_date 10 0 0.


(** A new installation: no file exists and no file is refused. *)
Definition fresh_disk : disk :=
  mkDisk None None None None None (fun _ => false).







(** [b] is a contiguous part of [s]. *)
Definition occurs_in (b s : text) : bool :=
  re_search (fun t => startswith t b) s.




(** A session at a new installation: two students, a mistyped time and a
    class strength that is too small, each asked again. *)
Definition demo_world : world :=
  mkWorld fresh_disk
    (map lit [ "2025-11-20"; "2"; "alice"; "25:99"; "09:15"; "bob"; "9:20 am";
               "1"; "3"; "no" ]%string)
    [] demo_now.




(** [parse_time t] returns [t] itself. *)
Definition parse_time_fixes (t : text) : bool :=
  match parse_time t with Ok t' => text_eqb t' t | Raise _ => false end.

(** A command that raises nothing but [EOFError], and that only when the
    input has run out. *)
Definition stops_at_eof {A} (m : io A) : Prop :=
  forall w,
    match m w with
    | (Ok _, _) => True
    | (Raise e, w') => e = EOFError /\ stdin w' = []
    end.


(** A command that changes no file but the export file. *)
Definition only_exports {A} (m : io A) : Prop :=
  forall w,
    archive (files (snd (m w))) = archive (files w)
    /\ csv_log (files (snd (m w))) = csv_log (files w)
    /\ out_pdf (files (snd (m w))) = out_pdf (files w)
    /\ roster_file (files (snd (m w))) = roster_file (files w)
    /\ refused (files (snd (m w))) = refused (files w).



(** The archive exists but cannot be read. *)
Definition unreadable_world : world :=
  mkWorld (mkDisk (Some (lit "notes")) None None None None
             (fun p => match p with ARCHIVE => true | _ => false end))
    (map lit [ "2025-11-20" ]%string) [] demo_now.








(** A command that puts nothing back into the input. *)
Definition reads_on {A} (m : io A) : Prop :=
  forall w, length (stdin (snd (m w))) <= length (stdin w).

(** A loop body that has read a line whenever it goes round again. *)
Definition reads_a_line {St} (body : St -> io (option St)) : Prop :=
  forall s w s' w',
    body s w = (Ok (Some s'), w') -> length (stdin w') < length (stdin w).







(** The menu asked for a query while the archive cannot be read. *)
Definition demo_menu_world : world :=
  mkWorld (files unreadable_world) (map lit [ " 2 "; "today"; "5" ]%string)
    [] demo_now.






(** The section prefix occurs nowhere in the text. *)
Definition prefix_free (s : text) : Prop :=
  forall a b, s = a ++ b -> startswith b section_prefix = false.





(* ================================================================= *)
(** ** The contact book ([contact_manager.py])

    The contact book has its own files, so its commands run in a world
    of their own.  The CSV file is held as its rows, the JSON file as the
    value [json.load] returns for it, and the error log as the entries
    appended to it. *)

Module Book.

(** The exceptions the program meets. *)
Inductive error :=
| EOFError
| OSError
| KeyError (key : text)
| AttributeError
| TypeError
| JSONDecodeError.

Inductive outcome (A : Type) :=
| Done (a : A)
| Fail (e : error).

Arguments Done {A} a.
Arguments Fail {A} e.

(** A value of [json.load]; of a float only whether it is zero matters. *)
Inductive json :=
| JNull
| JBool (b : bool)
| JInt (z : Z)
| JFloat (zero : bool)
| JStr (s : text)
| JArr (items : list json)
| JObj (members : list (text * json)).

Inductive json_text :=
| Malformed
| Parsed (v : json).

Inductive path := CSV_FILE | JSON_FILE | ERROR_LOG.

(** One line of the error log. *)
Record entry := mkEntry
  { logged_at : datetime; operation : text; failure : error }.

(** A contact, as [csv.DictReader] gives it. *)
Definition contact := dict text.

Record disk := mkDisk
  { csv_file : option (list (list text));
    json_file : option json_text;
    error_log : option (list entry);
    refused : path -> bool }.

Record world := mkWorld
  { files : disk;
    stdin : list text;
    stdout : list text;
    stderr : list text;
    clock : datetime }.

Definition io (A : Type) := world -> outcome A * world.

Definition ret {A} (a : A) : io A := fun w => (Done a, w).

Definition raise {A} (e : error) : io A := fun w => (Fail e, w).

Definition bind {A B} (m : io A) (k : A -> io B) : io B :=
  fun w =>
    match m w with
    | (Done a, w') => k a w'
    | (Fail e, w') => (Fail e, w')
    end.

Declare Scope book_scope.
Delimit Scope book_scope with book.

Notation "x <- m ;; k" := (bind m (fun x => k))
  (at level 61, m at next level, right associativity) : book_scope.

Notation "m ;;; k" := (bind m (fun _ => k))
  (at level 61, right associativity) : book_scope.

Local Open Scope book_scope.

(** [try: m  except Exception as e: handler e] *)
Definition try_except {A} (m : io A) (handler : error -> io A) : io A :=
  fun w =>
    match m w with
    | (Done a, w') => (Done a, w')
    | (Fail e, w') => handler e w'
    end.

Definition from_outcome {A} (o : outcome A) : io A := fun w => (o, w).

Definition print (msg : text) : io unit :=
  fun w => (Done tt, mkWorld (files w) (stdin w) (stdout w ++ [msg]) (stderr w)
                       (clock w)).

(** [print(msg, file=sys.stderr)] *)
Definition print_stderr (msg : text) : io unit :=
  fun w => (Done tt, mkWorld (files w) (stdin w) (stdout w) (stderr w ++ [msg])
                       (clock w)).

Definition input (prompt : text) : io text :=
  fun w =>
    match stdin w with
    | [] => (Fail EOFError,
             mkWorld (files w) [] (stdout w ++ [prompt]) (stderr w) (clock w))
    | l :: r => (Done l,
                 mkWorld (files w) r (stdout w ++ [prompt]) (stderr w) (clock w))
    end.

Definition with_files (w : world) (d : disk) : world :=
  mkWorld d (stdin w) (stdout w) (stderr w) (clock w).

Definition CSV_FIELDS : list text := [ lit "name"; lit "phone"; lit "email" ].

Definition TAB : ascii := ascii_of_nat 9.

(* ----------------------------------------------------------------- *)
(** *** Error logging *)

(** [log_error]: a log that cannot be opened is reported on the standard
    error stream; nothing is raised. *)
Definition log_error (op : text) (err : error) : io unit :=
  fun w =>
    if refused (files w) ERROR_LOG then
      print_stderr (lit "Failed to write to error log.") w
    else
      (Done tt,
       with_files w
         (mkDisk (csv_file (files w)) (json_file (files w))
            (Some (match error_log (files w) with Some l => l | None => [] end
                   ++ [mkEntry (clock w) op err]))
            (refused (files w)))).

(* ----------------------------------------------------------------- *)
(** *** CSV helpers *)

Definition write_csv (rows : list (list text)) (d : disk) : disk :=
  mkDisk (Some rows) (json_file d) (error_log d) (refused d).

Definition ensure_csv_exists : io unit :=
  fun w =>
    match csv_file (files w) with
    | Some _ => (Done tt, w)
    | None =>
        if refused (files w) CSV_FILE then
          (log_error (lit "ensure_csv_exists") OSError ;;; raise OSError) w
        else (Done tt, with_files w (write_csv [CSV_FIELDS] (files w)))
    end.

(** The row of [csv.DictReader]: [dict(zip(fieldnames, row))], then
    [None] under the fields the row is short of. *)
Fixpoint zip_row (fieldnames row : list text) (d : dict (option text))
  : dict (option text) :=
  match fieldnames with
  | [] => d
  | f :: fs =>
      match row with
      | v :: vs => zip_row fs vs (dict_set d f (Some v))
      | [] => zip_row fs [] (dict_set d f None)
      end
  end.

(** [(v or "")] *)
Definition or_empty (v : option text) : text :=
  match v with Some s => s | None => [] end.

(** The body of the loop of [load_contacts_from_csv].  A row longer than
    the header has a list under the key [None], which is true for [any]
    and has no [strip]. *)
Definition read_row (fieldnames row : list text) : outcome (option contact) :=
  if length fieldnames <? length row then Fail AttributeError
  else
    let d := zip_row fieldnames row [] in
    if existsb (fun kv => negb (text_eqb (or_empty (snd kv)) [])) d
    then Done (Some (map (fun kv => (fst kv, strip (or_empty (snd kv)))) d))
    else Done None.

(** The reader skips empty rows. *)
Fixpoint read_rows (fieldnames : list text) (rows : list (list text))
  : outcome (list contact) :=
  match rows with
  | [] => Done []
  | row :: r =>
      match row with
      | [] => read_rows fieldnames r
      | _ :: _ =>
          match read_row fieldnames row with
          | Fail e => Fail e
          | Done c =>
              match read_rows fieldnames r with
              | Fail e => Fail e
              | Done cs => Done (match c with Some c => c :: cs | None => cs end)
              end
          end
      end
  end.

Definition read_contacts (rows : list (list text)) : outcome (list contact) :=
  match rows with
  | [] => Done []
  | fieldnames :: data => read_rows fieldnames data
  end.

Definition open_csv : io (list contact) :=
  fun w =>
    match csv_file (files w) with
    | None => (Fail OSError, w)
    | Some rows =>
        if refused (files w) CSV_FILE then (Fail OSError, w)
        else (read_contacts rows, w)
    end.

Definition load_contacts_from_csv : io (list contact) :=
  ensure_csv_exists ;;;
  try_except open_csv
    (fun e => log_error (lit "load_contacts_from_csv") e ;;; raise e).

(** [c.get(k, "")] *)
Definition get_or_empty (c : contact) (k : text) : text :=
  match dict_get c k with Some v => v | None => [] end.

Definition contact_row (c : contact) : list text :=
  map (get_or_empty c) CSV_FIELDS.

Definition save_contacts_to_csv (contacts : list contact) : io unit :=
  try_except
    (fun w =>
       if refused (files w) CSV_FILE then (Fail OSError, w)
       else (Done tt,
             with_files w
               (write_csv (CSV_FIELDS :: map contact_row contacts) (files w))))
    (fun e => log_error (lit "save_contacts_to_csv") e ;;; raise e).

(* ----------------------------------------------------------------- *)
(** *** The operations *)

(** [c[key]] *)
Definition item (c : contact) (key : text) : outcome text :=
  match dict_get c key with
  | Some v => Done v
  | None => Fail (KeyError key)
  end.

(** [c["name"].lower() == key.lower()] *)
Definition named (key : text) (c : contact) : outcome bool :=
  match item c (lit "name") with
  | Done n => Done (text_eqb (lower n) (lower key))
  | Fail e => Fail e
  end.

(** [any(c["name"].lower() == name.lower() for c in contacts)] *)
Fixpoint any_named (name : text) (contacts : list contact) : outcome bool :=
  match contacts with
  | [] => Done false
  | c :: r =>
      match named name c with
      | Fail e => Fail e
      | Done true => Done true
      | Done false => any_named name r
      end
  end.

(** [[c for c in contacts if (c["name"].lower() == key.lower()) == keep]] *)
Fixpoint select (keep : bool) (key : text) (contacts : list contact)
  : outcome (list contact) :=
  match contacts with
  | [] => Done []
  | c :: r =>
      match named key c with
      | Fail e => Fail e
      | Done b =>
          match select keep key r with
          | Fail e => Fail e
          | Done cs => Done (if Bool.eqb b keep then c :: cs else cs)
          end
      end
  end.

Definition new_contact (name phone email : text) : contact :=
  [ (lit "name", name); (lit "phone", phone); (lit "email", email) ].

Definition add_contact : io unit :=
  try_except
    (line <- input (lit "Enter name: ") ;;
     let name := strip line in
     if text_eqb name [] then print (lit "Name cannot be empty.")
     else
       line <- input (lit "Enter phone number: ") ;;
       let phone := strip line in
       line <- input (lit "Enter email address: ") ;;
       let email := strip line in
       contacts <- load_contacts_from_csv ;;
       known <- from_outcome (any_named name contacts) ;;
       if known then
         print (lit "A contact with name '" ++ name
                  ++ lit "' already exists. Use update option instead.")
       else
         save_contacts_to_csv (contacts ++ [new_contact name phone email]) ;;;
         print (lit "Contact '" ++ name ++ lit "' added successfully."))
    (fun e =>
       log_error (lit "add_contact") e ;;;
       print (lit "Failed to add contact. Check error log.")).

(** [(len(c[key]) for c in contacts)], in full before [max] is called. *)
Fixpoint column (key : text) (contacts : list contact) : outcome (list nat) :=
  match contacts with
  | [] => Done []
  | c :: r =>
      match item c key with
      | Fail e => Fail e
      | Done v =>
          match column key r with
          | Fail e => Fail e
          | Done ns => Done (length v :: ns)
          end
      end
  end.

(** [max(len(heading), *lengths)] *)
Definition width (heading : text) (lengths : list nat) : nat :=
  fold_left Nat.max lengths (length heading).

Definition table_head (name_w phone_w email_w : nat) : text :=
  NL :: ljust name_w (lit "Name") ++ [TAB] ++ ljust phone_w (lit "Phone")
     ++ [TAB] ++ ljust email_w (lit "Email").

Definition table_rule (name_w phone_w email_w : nat) : text :=
  repeat (ascii_of_nat 45) (name_w + phone_w + email_w + 8).

Definition table_line (name_w phone_w email_w : nat) (c : contact) : outcome text :=
  match item c (lit "name") with
  | Fail e => Fail e
  | Done n =>
      match item c (lit "phone") with
      | Fail e => Fail e
      | Done p =>
          match item c (lit "email") with
          | Fail e => Fail e
          | Done m =>
              Done (ljust name_w n ++ [TAB] ++ ljust phone_w p ++ [TAB]
                      ++ ljust email_w m)
          end
      end
  end.

Fixpoint print_lines (name_w phone_w email_w : nat) (contacts : list contact)
  : io unit :=
  match contacts with
  | [] => ret tt
  | c :: r =>
      l <- from_outcome (table_line name_w phone_w email_w c) ;;
      print l ;;; print_lines name_w phone_w email_w r
  end.

Definition display_contacts : io unit :=
  try_except
    (contacts <- load_contacts_from_csv ;;
     match contacts with
     | [] => print (lit "No contacts found.")
     | _ :: _ =>
         names <- from_outcome (column (lit "name") contacts) ;;
         phones <- from_outcome (column (lit "phone") contacts) ;;
         emails <- from_outcome (column (lit "email") contacts) ;;
         let name_w := width (lit "Name") names in
         let phone_w := width (lit "Phone") phones in
         let email_w := width (lit "Email") emails in
         print (table_head name_w phone_w email_w) ;;;
         print (table_rule name_w phone_w email_w) ;;;
         print_lines name_w phone_w email_w contacts ;;;
         print []
     end)
    (fun e =>
       log_error (lit "display_contacts") e ;;;
       print (lit "Unable to display contacts. Check error log.")).

Fixpoint print_found (found : list contact) : io unit :=
  match found with
  | [] => ret tt
  | c :: r =>
      n <- from_outcome (item c (lit "name")) ;;
      print (lit "Name : " ++ n) ;;;
      p <- from_outcome (item c (lit "phone")) ;;
      print (lit "Phone: " ++ p) ;;;
      m <- from_outcome (item c (lit "email")) ;;
      print (lit "Email: " ++ m) ;;;
      print (repeat (ascii_of_nat 45) 30) ;;;
      print_found r
  end.

Definition search_contact : io unit :=
  try_except
    (line <- input (lit "Enter name to search: ") ;;
     let key := strip line in
     if text_eqb key [] then print (lit "Search term cannot be empty.")
     else
       contacts <- load_contacts_from_csv ;;
       found <- from_outcome (select true key contacts) ;;
       match found with
       | [] => print (lit "No contact found with name '" ++ key ++ lit "'.")
       | _ :: _ => print (NL :: lit "Found contact(s):") ;;; print_found found
       end)
    (fun e =>
       log_error (lit "search_contact") e ;;;
       print (lit "Search failed. Check error log.")).

(** The loop of [update_contact]: the first contact of the name is
    changed in place, and the loop ends there. *)
Fixpoint update_first (key : text) (contacts : list contact)
  : io (option (list contact)) :=
  match contacts with
  | [] => ret None
  | c :: r =>
      hit <- from_outcome (named key c) ;;
      if hit then
        p <- from_outcome (item c (lit "phone")) ;;
        print (lit "Current phone: " ++ p) ;;;
        line <- input (lit "Enter new phone (press Enter to keep current): ") ;;
        let c1 := if text_eqb (strip line) [] then c
                  else dict_set c (lit "phone") (strip line) in
        m <- from_outcome (item c1 (lit "email")) ;;
        print (lit "Current email: " ++ m) ;;;
        line <- input (lit "Enter new email (press Enter to keep current): ") ;;
        let c2 := if text_eqb (strip line) [] then c1
                  else dict_set c1 (lit "email") (strip line) in
        ret (Some (c2 :: r))
      else
        rest <- update_first key r ;;
        ret (match rest with Some r' => Some (c :: r') | None => None end)
  end.

Definition update_contact : io unit :=
  try_except
    (line <- input (lit "Enter name of contact to update: ") ;;
     let key := strip line in
     if text_eqb key [] then print (lit "Name cannot be empty.")
     else
       contacts <- load_contacts_from_csv ;;
       updated <- update_first key contacts ;;
       match updated with
       | None => print (lit "No contact found with name '" ++ key ++ lit "'.")
       | Some contacts' =>
           save_contacts_to_csv contacts' ;;;
           print (lit "Contact '" ++ key ++ lit "' updated successfully.")
       end)
    (fun e =>
       log_error (lit "update_contact") e ;;;
       print (lit "Failed to update contact. Check error log.")).

Definition delete_contact : io unit :=
  try_except
    (line <- input (lit "Enter name of contact to delete: ") ;;
     let key := strip line in
     if text_eqb key [] then print (lit "Name cannot be empty.")
     else
       contacts <- load_contacts_from_csv ;;
       new_contacts <- from_outcome (select false key contacts) ;;
       if length new_contacts =? length contacts then
         print (lit "No contact found with name '" ++ key ++ lit "'.")
       else
         save_contacts_to_csv new_contacts ;;;
         print (lit "Contact '" ++ key ++ lit "' deleted successfully."))
    (fun e =>
       log_error (lit "delete_contact") e ;;;
       print (lit "Failed to delete contact. Check error log.")).

(* ----------------------------------------------------------------- *)
(** *** JSON export and import *)

(** What [json.load] returns for what [json.dump] wrote. *)
Definition to_json (contacts : list contact) : json :=
  JArr (map (fun c => JObj (map (fun kv => (fst kv, JStr (snd kv))) c)) contacts).

Definition write_json (v : json) : io unit :=
  fun w =>
    if refused (files w) JSON_FILE then (Fail OSError, w)
    else (Done tt,
          with_files w
            (mkDisk (csv_file (files w)) (Some (Parsed v)) (error_log (files w))
               (refused (files w)))).

Definition export_to_json : io unit :=
  try_except
    (contacts <- load_contacts_from_csv ;;
     match contacts with
     | [] => print (lit "No contacts to export.")
     | _ :: _ =>
         write_json (to_json contacts) ;;;
         print (lit "Exported " ++ str_nat (length contacts)
                  ++ lit " contact(s) to 'contacts.json'.")
     end)
    (fun e =>
       log_error (lit "export_to_json") e ;;;
       print (lit "Failed to export to JSON. Check error log.")).

(** [not v] *)
Definition falsy (v : json) : bool :=
  match v with
  | JNull => true
  | JBool b => negb b
  | JInt z => (z =? 0)%Z
  | JFloat zero => zero
  | JStr s => text_eqb s []
  | JArr items => match items with [] => true | _ :: _ => false end
  | JObj members => match members with [] => true | _ :: _ => false end
  end.

(** [len(v)] *)
Definition json_len (v : json) : outcome nat :=
  match v with
  | JStr s => Done (length s)
  | JArr items => Done (length items)
  | JObj members => Done (length members)
  | _ => Fail TypeError
  end.

(** What [for c in v] goes through, for a value that has a length. *)
Definition json_items (v : json) : list json :=
  match v with
  | JStr s => map (fun c => JStr [c]) s
  | JArr items => items
  | JObj members => map (fun kv => JStr (fst kv)) members
  | _ => []
  end.

(** [c.get(key, "")] *)
Definition json_get (c : json) (key : text) : outcome json :=
  match c with
  | JObj members =>
      Done (match dict_get members key with Some v => v | None => JStr [] end)
  | _ => Fail AttributeError
  end.

(** [(len(c.get(key, "")) for c in contacts)] *)
Fixpoint json_column (key : text) (items : list json) : outcome (list nat) :=
  match items with
  | [] => Done []
  | c :: r =>
      match json_get c key with
      | Fail e => Fail e
      | Done v =>
          match json_len v with
          | Fail e => Fail e
          | Done n =>
              match json_column key r with
              | Fail e => Fail e
              | Done ns => Done (n :: ns)
              end
          end
      end
  end.

(** [c.get(key, "").ljust(w)] *)
Definition json_ljust (w : nat) (c : json) (key : text) : outcome text :=
  match json_get c key with
  | Fail e => Fail e
  | Done (JStr s) => Done (ljust w s)
  | Done _ => Fail AttributeError
  end.

Definition json_line (name_w phone_w email_w : nat) (c : json) : outcome text :=
  match json_ljust name_w c (lit "name") with
  | Fail e => Fail e
  | Done n =>
      match json_ljust phone_w c (lit "phone") with
      | Fail e => Fail e
      | Done p =>
          match json_ljust email_w c (lit "email") with
          | Fail e => Fail e
          | Done m => Done (n ++ [TAB] ++ p ++ [TAB] ++ m)
          end
      end
  end.

Fixpoint print_json_lines (name_w phone_w email_w : nat) (items : list json)
  : io unit :=
  match items with
  | [] => ret tt
  | c :: r =>
      l <- from_outcome (json_line name_w phone_w email_w c) ;;
      print l ;;; print_json_lines name_w phone_w email_w r
  end.

Definition read_json (t : json_text) : io json :=
  fun w =>
    if refused (files w) JSON_FILE then (Fail OSError, w)
    else match t with
         | Malformed => (Fail JSONDecodeError, w)
         | Parsed v => (Done v, w)
         end.

Definition import_from_json : io unit :=
  try_except
    (fun w =>
       match json_file (files w) with
       | None => print (lit "JSON file 'contacts.json' not found.") w
       | Some t =>
           (contacts <- read_json t ;;
            if falsy contacts then print (lit "JSON file is empty.")
            else
              n <- from_outcome (json_len contacts) ;;
              print (lit "Loaded " ++ str_nat n
                       ++ lit " contact(s) from 'contacts.json':") ;;;
              names <- from_outcome (json_column (lit "name") (json_items contacts)) ;;
              phones <- from_outcome (json_column (lit "phone") (json_items contacts)) ;;
              emails <- from_outcome (json_column (lit "email") (json_items contacts)) ;;
              let name_w := width (lit "Name") names in
              let phone_w := width (lit "Phone") phones in
              let email_w := width (lit "Email") emails in
              print (table_head name_w phone_w email_w) ;;;
              print (table_rule name_w phone_w email_w) ;;;
              print_json_lines name_w phone_w email_w (json_items contacts) ;;;
              print []) w
       end)
    (fun e =>
       log_error (lit "import_from_json") e ;;;
       print (lit "Failed to import JSON. Check error log.")).

(* ----------------------------------------------------------------- *)
(** *** Menu and main *)

Fixpoint print_all (msgs : list text) : io unit :=
  match msgs with
  | [] => ret tt
  | m :: r => print m ;;; print_all r
  end.

Definition welcome_lines : list text :=
  [ lit "========================================";
    lit "   Contact Book — CSV & JSON Manager";
    lit "   (Add / View / Search / Update / Delete)";
    lit "========================================" ++ [NL];
    lit "This tool stores contacts in 'contacts.csv'. You can also export to/import from 'contacts.json'.";
    lit "All exceptions are logged in 'error_log.txt'." ++ [NL] ].

Definition print_welcome : io unit := print_all welcome_lines.

Definition menu_lines : list text :=
  [ lit "Menu:";
    lit "1. Add contact";
    lit "2. View all contacts";
    lit "3. Search contact by name";
    lit "4. Update contact";
    lit "5. Delete contact";
    lit "6. Export contacts to JSON";
    lit "7. Load & display contacts from JSON";
    lit "8. Exit" ].

Definition print_menu : io unit := print_all menu_lines.

Definition spacer : text := NL :: repeat (ascii_of_nat 61) 50 ++ [NL].

(** One round of the loop of [main]: [false] is the [break]. *)
Definition main_round : io bool :=
  print_menu ;;;
  line <- input (lit "Choose an option (1-8): ") ;;
  let choice := strip line in
  if text_eqb choice (lit "8") then print (lit "Goodbye!") ;;; ret false
  else
    (if text_eqb choice (lit "1") then add_contact
     else if text_eqb choice (lit "2") then display_contacts
     else if text_eqb choice (lit "3") then search_contact
     else if text_eqb choice (lit "4") then update_contact
     else if text_eqb choice (lit "5") then delete_contact
     else if text_eqb choice (lit "6") then export_to_json
     else if text_eqb choice (lit "7") then import_from_json
     else print (lit "Invalid choice. Please choose a number between 1 and 8.")) ;;;
    print spacer ;;;
    ret true.

(** The [while True:] of [main].  Every round reads a line, so a number
    of rounds above the number of lines left is never used up. *)
Fixpoint main_loop (rounds : nat) : io unit :=
  match rounds with
  | 0 => raise EOFError
  | S rounds' =>
      again <- main_round ;;
      if again then main_loop rounds' else ret tt
  end.

Definition main : io unit :=
  fun w =>
    match ensure_csv_exists w with
    | (Fail _, w') => print (lit "Fatal: cannot initialize CSV file. Exiting.") w'
    | (Done _, w') =>
        (print_welcome ;;; fun v => main_loop (S (length (stdin v))) v) w'
    end.

End Book.

(* ----------------------------------------------------------------- *)
(* PROOFS *)

(* ================================================================= *)
(** ** Characters and strings *)







Lemma text_eqb_eq (a b : text) : text_eqb a b = true <-> a = b.
Proof.
  revert b. induction a as [|x a IH]; intros [|y b]; simpl; split;
    try congruence; try discriminate.
  - rewrite andb_true_iff, Ascii.eqb_eq, IH. now intros [-> ->].
  - intros [= -> ->]. rewrite Ascii.eqb_refl. simpl. now apply IH.
Qed.

Lemma startswith_app (p r : text) : startswith (p ++ r) p = true.
Proof. induction p as [|a p IH]; simpl; [easy|]. now rewrite Ascii.eqb_refl. Qed.

Lemma startswith_inv (s p : text) :
  startswith s p = true -> exists r, s = p ++ r.
Proof.
  revert s. induction p as [|a p IH]; intros s H; simpl in *.
  - now exists s.
  - destruct s as [|b s]; [discriminate|].
    apply andb_true_iff in H as [E H]. apply Ascii.eqb_eq in E as ->.
    destruct (IH _ H) as [r ->]. now exists r.
Qed.




Lemma str_digits_app (fuel n : nat) (acc : text) :
  str_digits fuel n acc = str_digits fuel n [] ++ acc.
Proof.
  revert n acc. induction fuel as [|f IH]; intros n acc; simpl; [easy|].
  destruct (n <? 10); [easy|].
  rewrite IH. rewrite (IH _ [digit_char n]). now rewrite <- app_assoc.
Qed.



Lemma str_nat_last (n : nat) : exists pre, str_nat n = pre ++ [digit_char n].
Proof.
  unfold str_nat. simpl. destruct (n <? 10).
  - now exists [].
  - rewrite str_digits_app. eauto.
Qed.







Ltac ascii_cases c := destruct c as [[|] [|] [|] [|] [|] [|] [|] [|]].



Lemma upper_not_lower (c : ascii) : is_upper c = true -> is_lower c = false.
Proof. ascii_cases c; vm_compute; intro; try discriminate; reflexivity. Qed.






(* ----------------------------------------------------------------- *)
(** *** Stripping *)





Lemma NL_is_space : is_space NL = true.
Proof. reflexivity. Qed.

(* ----------------------------------------------------------------- *)
(** *** Lines *)








(* ================================================================= *)
(** ** The scan of [re.findall] and [re.split] *)

Lemma firstn_length_app {A} (a b : list A) : firstn (length a) (a ++ b) = a.
Proof. induction a; simpl; congruence. Qed.

Lemma skipn_length_app {A} (a b : list A) : skipn (length a) (a ++ b) = b.
Proof. induction a; simpl; congruence. Qed.

Section ScanFacts.

Variable match_at : text -> option nat.




Lemma re_scan_hits_gap (skip : nat) (gap s : text) :
  map snd (fst (re_scan match_at skip gap s))
  = map snd (fst (re_scan match_at skip [] s)).
Proof.
  revert skip gap. induction s as [|c r IH]; intros skip gap; [easy|].
  simpl. destruct skip as [|k]; [|apply IH].
  destruct (match_at (c :: r)) as [[|n]|].
  - rewrite IH. symmetry. apply IH.
  - destruct (re_scan match_at n [] r). reflexivity.
  - rewrite IH. symmetry. apply IH.
Qed.

End ScanFacts.

(* ================================================================= *)
(** ** The archive: [write_archive_section] and [find_sections_by_date] *)

Lemma startswith_cons (b a : ascii) (s p : text) :
  startswith (b :: s) (a :: p) = Ascii.eqb b a && startswith s p.
Proof. reflexivity. Qed.

Lemma startswith_nil (a : ascii) (p : text) : startswith [] (a :: p) = false.
Proof. reflexivity. Qed.

Arguments startswith : simpl never.
Arguments section_head : simpl never.









(* ----------------------------------------------------------------- *)
(** *** The lines of a section *)































(** C6. [write_archive_section] succeeds exactly when the archive can be
    opened; the archive then is the prior text, unchanged, followed by the
    new section, and no other file is touched. *)
Theorem write_archive_section_appends
    (d : disk) (for_date : date) (stamp : text) (attendance : dict text)
    (total absent : Z) :
  match write_archive_section for_date stamp attendance total absent d with
  | Ok d' =>
      refused d ARCHIVE = false
      /\ archive d'
         = Some (text_or_empty (archive d)
                   ++ section_text for_date stamp attendance total absent)
      /\ firstn (length (text_or_empty (archive d))) (text_or_empty (archive d'))
         = text_or_empty (archive d)
      /\ skipn (length (text_or_empty (archive d))) (text_or_empty (archive d'))
         = section_text for_date stamp attendance total absent
      /\ export_file d' = export_file d /\ csv_log d' = csv_log d
      /\ out_pdf d' = out_pdf d /\ roster_file d' = roster_file d
  | Raise e => refused d ARCHIVE = true /\ e = OSError
  end.
Proof.
  unfold write_archive_section. destruct (refused d ARCHIVE); [easy|].
  cbn [archive set_archive text_or_empty export_file csv_log out_pdf roster_file].
  rewrite firstn_length_app, skipn_length_app. repeat split.
Qed.




(* ================================================================= *)
(** ** [parse_time] *)

Lemma whole_match_in {A} (m : matcher A) (s : text) (a : A) :
  whole_match m s = Some a -> In (a, []) (m s).
Proof.
  unfold whole_match. destruct (m s) as [|[v [|c r]] l]; try discriminate.
  intros [= ->]. now left.
Qed.

Lemma m_all_ret {A} (P : A -> Prop) (a : A) : P a -> m_all P (m_ret a).
Proof. intros H s v r [[= <- _]|[]]. exact H. Qed.

Lemma m_all_bind {A B} (P : A -> Prop) (Q : B -> Prop)
    (m : matcher A) (k : A -> matcher B) :
  m_all P m -> (forall a, P a -> m_all Q (k a)) -> m_all Q (m_bind m k).
Proof.
  intros Hm Hk s v r Hin. unfold m_bind in Hin.
  apply in_flat_map in Hin as ([a r'] & Ha & Hv).
  exact (Hk a (Hm _ _ _ Ha) _ _ _ Hv).
Qed.

Lemma m_all_alt {A} (P : A -> Prop) (m1 m2 : matcher A) :
  m_all P m1 -> m_all P m2 -> m_all P (m_alt m1 m2).
Proof.
  intros H1 H2 s v r Hin. unfold m_alt in Hin.
  apply in_app_iff in Hin as [Hin|Hin]; [exact (H1 _ _ _ Hin) | exact (H2 _ _ _ Hin)].
Qed.

Lemma m_all_digit (lo hi : nat) : m_all (fun v => lo <= v <= hi) (m_digit lo hi).
Proof.
  intros s v r Hin. unfold m_digit in Hin. destruct s as [|c s]; [easy|].
  destruct (is_digit c && (lo <=? code c - 48) && (code c - 48 <=? hi)) eqn:E;
    [|easy].
  destruct Hin as [[= <- _]|[]].
  apply andb_true_iff in E as [E E2]. apply andb_true_iff in E as [_ E1].
  apply Nat.leb_le in E1, E2. lia.
Qed.

Lemma m_all_two (alo ahi blo bhi : nat) :
  m_all (fun v => 10 * alo + blo <= v <= 10 * ahi + bhi) (m_two alo ahi blo bhi).
Proof.
  unfold m_two.
  eapply m_all_bind; [apply m_all_digit|]. intros a Ha.
  eapply m_all_bind; [apply m_all_digit|]. intros b Hb.
  apply m_all_ret. cbv beta in Ha, Hb. lia.
Qed.

Lemma m_all_weaken {A} (P Q : A -> Prop) (m : matcher A) :
  (forall a, P a -> Q a) -> m_all P m -> m_all Q m.
Proof. intros H Hm s v r Hin. exact (H _ (Hm _ _ _ Hin)). Qed.

Lemma re_I_range : m_all (fun v => 1 <= v <= 12) re_I.
Proof.
  unfold re_I. repeat apply m_all_alt.
  - eapply m_all_weaken; [|apply m_all_two]. simpl. lia.
  - eapply m_all_weaken; [|apply m_all_two]. simpl. lia.
  - eapply m_all_weaken; [|apply m_all_digit]. simpl. lia.
Qed.

Lemma re_H_range : m_all (fun v => v < 24) re_H.
Proof.
  unfold re_H. repeat apply m_all_alt.
  - eapply m_all_weaken; [|apply m_all_two]. simpl. lia.
  - eapply m_all_weaken; [|apply m_all_two]. simpl. lia.
  - eapply m_all_weaken; [|apply m_all_digit]. simpl. lia.
Qed.

Lemma re_M_range : m_all (fun v => v < 60) re_M.
Proof.
  unfold re_M. repeat apply m_all_alt.
  - eapply m_all_weaken; [|apply m_all_two]. simpl. lia.
  - eapply m_all_weaken; [|apply m_all_digit]. simpl. lia.
Qed.

Lemma m_all_true {A} (m : matcher A) : m_all (fun _ => True) m.
Proof. now intros s v r _. Qed.

Lemma hour_of_12_range (h : nat) (pm : bool) :
  1 <= h <= 12 -> hour_of_12 h pm < 24.
Proof.
  intro H. unfold hour_of_12.
  destruct pm; destruct (h =? 12) eqn:E; try apply Nat.eqb_neq in E; lia.
Qed.

Lemma fmt_I_M_p_range : m_all clock_time fmt_I_M_p.
Proof.
  unfold fmt_I_M_p.
  eapply m_all_bind; [apply re_I_range|]. intros h Hh.
  eapply m_all_bind; [apply m_all_true|]. intros _ _.
  eapply m_all_bind; [apply re_M_range|]. intros mi Hmi.
  eapply m_all_bind; [apply m_all_true|]. intros _ _.
  eapply m_all_bind; [apply m_all_true|]. intros pm _.
  apply m_all_ret. split; [now apply hour_of_12_range | exact Hmi].
Qed.

Lemma fmt_H_M_range : m_all clock_time fmt_H_M.
Proof.
  unfold fmt_H_M.
  eapply m_all_bind; [apply re_H_range|]. intros h Hh.
  eapply m_all_bind; [apply m_all_true|]. intros _ _.
  eapply m_all_bind; [apply re_M_range|]. intros mi Hmi.
  apply m_all_ret. now split.
Qed.

Lemma fmt_I_Mp_range : m_all clock_time fmt_I_Mp.
Proof.
  unfold fmt_I_Mp.
  eapply m_all_bind; [apply re_I_range|]. intros h Hh.
  eapply m_all_bind; [apply m_all_true|]. intros _ _.
  eapply m_all_bind; [apply re_M_range|]. intros mi Hmi.
  eapply m_all_bind; [apply m_all_true|]. intros pm _.
  apply m_all_ret. split; [now apply hour_of_12_range | exact Hmi].
Qed.




(* ================================================================= *)
(** ** Names as the recording flow stores them *)



Lemma title_from_cons (b : bool) (c : ascii) (r : text) :
  title_from b (c :: r) = title_char b c :: title_from (title_state b c) r.
Proof.
  simpl. unfold title_char, title_state.
  destruct (is_lower c); [easy|]. now destruct (is_upper c).
Qed.


















(* ================================================================= *)
(** ** Commands *)

Lemma bind_ok {A B} (m : io A) (k : A -> io B) (w w' : world) (b : B) :
  bind m k w = (Ok b, w') ->
  exists a w1, m w = (Ok a, w1) /\ k a w1 = (Ok b, w').
Proof.
  unfold bind. destruct (m w) as [[a|e] w1]; [|discriminate].
  intro H. now exists a, w1.
Qed.

Lemma steady_ret {A} (a : A) : steady (ret a).
Proof. intros w r w' [= <- <-]. repeat split. now exists []. Qed.

Lemma steady_print (msg : text) : steady (print msg).
Proof. intros w r w' [= <- <-]. repeat split. now exists []. Qed.

Lemma steady_input (prompt : text) : steady (input prompt).
Proof.
  intros w r w'. unfold input. destruct (stdin w) as [|l ins] eqn:E.
  - intros [= <- <-]. repeat split. now exists [].
  - intros [= <- <-]. repeat split. now exists [l].
Qed.

Lemma steady_get_now : steady get_now.
Proof. intros w r w' [= <- <-]. repeat split. now exists []. Qed.

Lemma steady_get_today : steady get_today.
Proof. intros w r w' [= <- <-]. repeat split. now exists []. Qed.

Lemma steady_bind {A B} (m : io A) (k : A -> io B) :
  steady m -> (forall a, steady (k a)) -> steady (bind m k).
Proof.
  intros Hm Hk w r w'. unfold bind.
  destruct (m w) as [[a|e] w1] eqn:E; intro H.
  - destruct (Hm _ _ _ E) as (F1 & C1 & u1 & S1).
    destruct (Hk a _ _ _ H) as (F2 & C2 & u2 & S2).
    repeat split; try congruence.
    exists (u1 ++ u2). now rewrite S1, S2, app_assoc.
  - injection H as <- <-. exact (Hm _ _ _ E).
Qed.

Lemma prompt_loop_spec {A} (prompt : text) (step : text -> list text * option A)
    (ins out : list text) (r : result A) (ins' out' : list text) :
  prompt_loop prompt step ins out = (r, ins', out') ->
  (exists used, ins = used ++ ins')
  /\ (forall a, r = Ok a -> exists line, In line ins /\ snd (step line) = Some a).
Proof.
  revert out. induction ins as [|l ins IH]; intro out; simpl.
  - intros [= <- <- <-]. split; [now exists []|]. discriminate.
  - destruct (snd (step l)) as [a|] eqn:E.
    + intros [= <- <- <-]. split; [now exists [l]|].
      intros a' [= <-]. exists l. split; [now left | exact E].
    + intro H. destruct (IH _ H) as [[used Hu] Hr]. split.
      * exists (l :: used). simpl. now rewrite Hu.
      * intros a Ha. destruct (Hr a Ha) as (line & Hin & Hs).
        exists line. split; [now right | exact Hs].
Qed.

Lemma steady_ask {A} (prompt : text) (step : text -> list text * option A) :
  steady (ask prompt step).
Proof.
  intros w r w'. unfold ask.
  destruct (prompt_loop prompt step (stdin w) (stdout w)) as [[r0 ins] out] eqn:E.
  intros [= <- <-]. repeat split.
  exact (proj1 (prompt_loop_spec _ _ _ _ _ _ _ E)).
Qed.


Lemma steady_print_all (msgs : list text) : steady (print_all msgs).
Proof.
  induction msgs as [|m r IH]; simpl.
  - apply steady_ret.
  - apply steady_bind; [apply steady_print | intro; exact IH].
Qed.

Lemma steady_ask_yes_no (prompt : text) : steady (ask_yes_no prompt).
Proof.
  apply steady_bind; [apply steady_input | intro; apply steady_ret].
Qed.

(* ----------------------------------------------------------------- *)
(** *** The entries the recording flow collects *)









Lemma bind_steady_ok {A B} (m : io A) (k : A -> io B) (w w' : world) (b : B) :
  steady m ->
  bind m k w = (Ok b, w') ->
  exists a w1,
    m w = (Ok a, w1) /\ files w1 = files w /\ clock w1 = clock w
    /\ (exists used, stdin w = used ++ stdin w1)
    /\ k a w1 = (Ok b, w').
Proof.
  intros Hm H. apply bind_ok in H as (a & w1 & H1 & H).
  destruct (Hm _ _ _ H1) as (F & C & S). now exists a, w1.
Qed.







Lemma steady_for_date (line : text) :
  steady (if text_eqb (strip line) [] then get_today
          else match parse_date (strip line) with
               | Some d => ret d
               | None =>
                   print (lit "Invalid date format. Using today's date.") ;;;
                   get_today
               end).
Proof.
  destruct (text_eqb (strip line) []); [apply steady_get_today|].
  destruct (parse_date (strip line)); [apply steady_ret|].
  apply steady_bind; [apply steady_print | intro; apply steady_get_today].
Qed.





(* ================================================================= *)
(** ** Queries *)

(** C10. When the archive file does not exist, [find_sections_by_date]
    returns the empty list and raises nothing, whether or not the file
    could be opened, and a query reports that no records were found. *)
Theorem find_sections_without_archive (target_date : date) (w : world) :
  archive (files w) = None ->
  find_sections_by_date target_date (files w) = Ok []
  /\ query_sections target_date w
     = (Ok tt,
        mkWorld (files w) (stdin w)
          (stdout w ++ [ lit "No records found for " ++ isoformat target_date
                           ++ lit "." ])
          (clock w)).
Proof.
  intro H. unfold query_sections, bind, from_disk, find_sections_by_date.
  rewrite H. split; reflexivity.
Qed.

Lemma find_sections_without_archive_witness :
  find_sections_by_date demo_date (files demo_world) = Ok []
  /\ query_sections demo_date demo_world
     = (Ok tt,
        mkWorld (files demo_world) (stdin demo_world)
          (stdout demo_world ++ [ lit "No records found for " ++ isoformat demo_date
                                    ++ lit "." ])
          (clock demo_world)).
Proof.
  apply (find_sections_without_archive demo_date demo_world). reflexivity.
Defined.

(* ================================================================= *)
(** ** The report *)








(* ================================================================= *)
(** ** Decimal numbers and dates *)











Lemma occurs_in_spec (b s : text) :
  occurs_in b s = true <-> exists pre post, s = pre ++ b ++ post.
Proof.
  unfold occurs_in. induction s as [|c s IH]; simpl.
  - rewrite orb_false_r. split.
    + intro H. apply startswith_inv in H as [r H]. now exists [], r.
    + intros (pre & post & H). destruct pre; [|discriminate].
      simpl in H. rewrite H. apply startswith_app.
  - rewrite orb_true_iff, IH. split.
    + intros [H|(pre & post & H)].
      * apply startswith_inv in H as [r H]. now exists [], r.
      * exists (c :: pre), post. simpl. now rewrite H.
    + intros (pre & post & H). destruct pre as [|x pre].
      * left. simpl in H. rewrite H. apply startswith_app.
      * right. injection H as _ H. now exists pre, post.
Qed.

(* ================================================================= *)
(** ** The sections of an archive the program wrote *)








(* ----------------------------------------------------------------- *)
(** *** A section of another date is passed over *)

















(* ----------------------------------------------------------------- *)
(** *** A section of the date is matched up to its closing blank line *)



























(* ================================================================= *)
(** ** More on [parse_time] *)

Lemma parse_time_clock (s t : text) :
  parse_time s = Ok t -> exists hm, clock_time hm /\ t = strftime_12h hm.
Proof.
  unfold parse_time.
  destruct (whole_match fmt_I_M_p (strip s)) as [hm|] eqn:E1.
  { intros [= <-]. exists hm. split; [|reflexivity].
    exact (fmt_I_M_p_range _ _ _ (whole_match_in _ _ _ E1)). }
  destruct (whole_match fmt_H_M (strip s)) as [hm|] eqn:E2.
  { intros [= <-]. exists hm. split; [|reflexivity].
    exact (fmt_H_M_range _ _ _ (whole_match_in _ _ _ E2)). }
  destruct (whole_match fmt_I_Mp (strip s)) as [hm|] eqn:E3.
  { intros [= <-]. exists hm. split; [|reflexivity].
    exact (fmt_I_Mp_range _ _ _ (whole_match_in _ _ _ E3)). }
  discriminate.
Qed.

Lemma strftime_12h_fixed (hm : nat * nat) :
  clock_time hm -> parse_time_fixes (strftime_12h hm) = true.
Proof.
  destruct hm as [h mi]. intros [Hh Hm]. cbn [fst snd] in Hh, Hm.
  assert (All : forallb (fun h => forallb (fun mi =>
                  parse_time_fixes (strftime_12h (h, mi))) (seq 0 60)) (seq 0 24)
                = true) by (vm_compute; reflexivity).
  rewrite forallb_forall in All.
  specialize (All h). rewrite forallb_forall in All.
  apply All; apply in_seq; lia.
Qed.

(** X2. The normal form is a fixed point: a time [parse_time] returned is
    accepted again by [parse_time] and returned unchanged. *)
Theorem parse_time_idempotent (s t : text) :
  parse_time s = Ok t -> parse_time t = Ok t.
Proof.
  intro H. destruct (parse_time_clock s t H) as (hm & Hc & ->).
  pose proof (strftime_12h_fixed hm Hc) as Hf. unfold parse_time_fixes in Hf.
  destruct (parse_time (strftime_12h hm)) as [t'|e]; [|discriminate].
  apply text_eqb_eq in Hf. now subst.
Qed.

Lemma parse_time_idempotent_witness :
  parse_time (lit "01:05 PM") = Ok (lit "01:05 PM").
Proof.
  apply (parse_time_idempotent (lit " 13:05 ") (lit "01:05 PM")).
  vm_compute. reflexivity.
Defined.

(* ================================================================= *)
(** ** More on the recording flow *)







(* ----------------------------------------------------------------- *)
(** *** What the recording flow raises *)

Lemma stops_ret {A} (a : A) : stops_at_eof (ret a).
Proof. intro w. exact I. Qed.

Lemma stops_print (msg : text) : stops_at_eof (print msg).
Proof. intro w. exact I. Qed.

Lemma stops_get_now : stops_at_eof get_now.
Proof. intro w. exact I. Qed.

Lemma stops_get_today : stops_at_eof get_today.
Proof. intro w. exact I. Qed.

Lemma stops_input (prompt : text) : stops_at_eof (input prompt).
Proof. intro w. unfold input. destruct (stdin w); [now split | exact I]. Qed.

Lemma stops_bind {A B} (m : io A) (k : A -> io B) :
  stops_at_eof m -> (forall a, stops_at_eof (k a)) -> stops_at_eof (bind m k).
Proof.
  intros Hm Hk w. unfold bind. specialize (Hm w).
  destruct (m w) as [[a|e] w1]; [apply Hk | exact Hm].
Qed.

Lemma stops_prompt_loop {A} (prompt : text) (step : text -> list text * option A)
    (ins out : list text) :
  match prompt_loop prompt step ins out with
  | (Ok _, _, _) => True
  | (Raise e, ins', _) => e = EOFError /\ ins' = []
  end.
Proof.
  revert out. induction ins as [|l ins IH]; intro out; cbn [prompt_loop].
  - now split.
  - destruct (snd (step l)); [exact I | apply IH].
Qed.

Lemma stops_ask {A} (prompt : text) (step : text -> list text * option A) :
  stops_at_eof (ask prompt step).
Proof.
  intro w. unfold ask.
  pose proof (stops_prompt_loop prompt step (stdin w) (stdout w)) as H.
  destruct (prompt_loop prompt step (stdin w) (stdout w)) as [[[a|e] ins] out];
    [exact I | exact H].
Qed.

(** A handler that only prints turns every failure into a return. *)
Lemma stops_guarded (m : io unit) (msg : exn -> text) :
  stops_at_eof (try_except m (fun e => print (msg e))).
Proof.
  intro w. unfold try_except. destruct (m w) as [[a|e] w1]; exact I.
Qed.

Lemma stops_print_all (msgs : list text) : stops_at_eof (print_all msgs).
Proof.
  induction msgs as [|m r IH]; cbn [print_all].
  - apply stops_ret.
  - apply stops_bind; [apply stops_print | intro; exact IH].
Qed.

Lemma stops_record_entries (todo : nat) :
  forall i att, stops_at_eof (record_entries todo i att).
Proof.
  induction todo as [|todo IH]; intros i att; cbn [record_entries].
  - apply stops_ret.
  - apply stops_bind; [apply stops_ask|]. intro name.
    apply stops_bind; [apply stops_ask|]. intro t. apply IH.
Qed.

Lemma stops_record_attendance_flow : stops_at_eof record_attendance_flow.
Proof.
  unfold record_attendance_flow.
  apply stops_bind; [apply stops_print|]. intros _.
  apply stops_bind; [apply stops_input|]. intro line.
  apply stops_bind.
  { destruct (text_eqb (strip line) []); [apply stops_get_today|].
    destruct (parse_date (strip line)); [apply stops_ret|].
    apply stops_bind; [apply stops_print | intro; apply stops_get_today]. }
  intro for_date.
  apply stops_bind; [apply stops_ask|]. intro count.
  apply stops_bind; [apply stops_record_entries|]. intro attendance.
  apply stops_bind; [apply stops_print|]. intros _.
  apply stops_bind; [apply stops_print|]. intros _.
  apply stops_bind; [apply stops_print|]. intros _.
  apply stops_bind; [apply stops_print_all|]. intros _.
  apply stops_bind; [apply stops_print|]. intros _.
  apply stops_bind; [apply stops_print|]. intros _.
  apply stops_bind; [apply stops_ask|]. intro total.
  apply stops_bind; [apply stops_print|]. intros _.
  apply stops_bind; [apply stops_print|]. intros _.
  apply stops_bind; [apply stops_get_now|]. intro now.
  apply stops_bind; [apply stops_guarded|]. intros _.
  apply stops_bind.
  { apply stops_bind; [apply stops_input | intro; apply stops_ret]. }
  intros [|]; [apply stops_guarded | apply stops_ret].
Qed.

(** X4. The recording flow raises nothing but [EOFError], and that only
    when the input has run out: a failure to write the archive or the CSV
    log never leaves the flow. *)
Theorem record_attendance_flow_stops_at_eof (w : world) :
  match record_attendance_flow w with
  | (Ok _, _) => True
  | (Raise e, w') => e = EOFError /\ stdin w' = []
  end.
Proof. exact (stops_record_attendance_flow w). Qed.






(* ================================================================= *)
(** ** The query flow *)

Lemma only_exports_same {A} (m : io A) :
  (forall w, files (snd (m w)) = files w) -> only_exports m.
Proof. intros H w. rewrite H. repeat split. Qed.

Lemma only_exports_bind {A B} (m : io A) (k : A -> io B) :
  only_exports m -> (forall a, only_exports (k a)) -> only_exports (bind m k).
Proof.
  intros Hm Hk w. unfold bind. specialize (Hm w).
  destruct (m w) as [[a|e] w1]; cbn [snd] in *; [|exact Hm].
  destruct Hm as (M1 & M2 & M3 & M4 & M5).
  destruct (Hk a w1) as (K1 & K2 & K3 & K4 & K5).
  rewrite K1, K2, K3, K4, K5. repeat split; assumption.
Qed.

Lemma only_exports_print (msg : text) : only_exports (print msg).
Proof. apply only_exports_same. reflexivity. Qed.

Lemma only_exports_ask_yes_no (prompt : text) : only_exports (ask_yes_no prompt).
Proof.
  apply only_exports_same. intro w. unfold ask_yes_no, bind, input, ret.
  destruct (stdin w); reflexivity.
Qed.

Lemma only_exports_print_found (iso : text) (sections : list text) :
  forall idx, only_exports (print_found idx iso sections).
Proof.
  induction sections as [|sec r IH]; intro idx; cbn [print_found].
  - apply only_exports_same. reflexivity.
  - apply only_exports_bind; [apply only_exports_print|]. intros _.
    apply only_exports_bind; [apply only_exports_print|]. intros _. apply IH.
Qed.

Lemma only_exports_guarded_export (combined m1 : text) (m2 : exn -> text) :
  only_exports (try_except (on_disk (write_export combined) ;;; print m1)
                           (fun e => print (m2 e))).
Proof.
  intro w. unfold try_except, bind, on_disk, print, write_export.
  destruct (refused (files w) EXPORT_FILE); cbn [snd files]; repeat split.
Qed.

Lemma only_exports_query_sections (target_date : date) :
  only_exports (query_sections target_date).
Proof.
  unfold query_sections. apply only_exports_bind.
  { apply only_exports_same. intro w. unfold from_disk.
    destruct (find_sections_by_date target_date (files w)); reflexivity. }
  intros [|sec r]; [apply only_exports_print|].
  apply only_exports_bind; [apply only_exports_print_found|]. intros _.
  apply only_exports_bind; [apply only_exports_ask_yes_no|].
  intros [|]; [apply only_exports_guarded_export | apply only_exports_print].
Qed.

Lemma only_exports_query_by_date_flow : only_exports query_by_date_flow.
Proof.
  unfold query_by_date_flow.
  apply only_exports_bind; [apply only_exports_print|]. intros _.
  apply only_exports_bind.
  { apply only_exports_same. intro w. unfold input. destruct (stdin w); reflexivity. }
  intro line. destruct (text_eqb (lower (strip line)) (lit "today")).
  - apply only_exports_bind; [apply only_exports_same; reflexivity|].
    intro d. apply only_exports_query_sections.
  - destruct (parse_date (strip line)) as [d|];
      [apply only_exports_query_sections | apply only_exports_print].
Qed.

(** X6. The query flow writes to no file but the export file: however it
    ends, the archive, the CSV log, the report and the roster are as they
    were. *)
Theorem query_by_date_flow_only_exports (w : world) :
  archive (files (snd (query_by_date_flow w))) = archive (files w)
  /\ csv_log (files (snd (query_by_date_flow w))) = csv_log (files w)
  /\ out_pdf (files (snd (query_by_date_flow w))) = out_pdf (files w)
  /\ roster_file (files (snd (query_by_date_flow w))) = roster_file (files w).
Proof.
  destruct (only_exports_query_by_date_flow w) as (H1 & H2 & H3 & H4 & _).
  repeat split; assumption.
Qed.

Lemma query_unreadable
    (w : world) (line : text) (rest : list text) (content : text) :
  stdin w = line :: rest ->
  text_eqb (lower (strip line)) (lit "today") = true
    \/ parse_date (strip line) <> None ->
  archive (files w) = Some content ->
  refused (files w) ARCHIVE = true ->
  fst (query_by_date_flow w) = Raise OSError
  /\ files (snd (query_by_date_flow w)) = files w.
Proof.
  intros Hin Hdate Harch Href.
  assert (Hq : forall d v, files v = files w ->
             fst (query_sections d v) = Raise OSError
             /\ files (snd (query_sections d v)) = files w).
  { intros d v Hv. unfold query_sections, bind, from_disk, find_sections_by_date.
    rewrite Hv, Harch, Href. split; [reflexivity | exact Hv]. }
  unfold query_by_date_flow, bind, print, input. cbn [stdin files stdout clock].
  rewrite Hin.
  destruct (text_eqb (lower (strip line)) (lit "today")).
  - unfold get_today. apply Hq. reflexivity.
  - destruct Hdate as [Hd|Hd]; [discriminate|].
    destruct (parse_date (strip line)) as [d|]; [|contradiction].
    apply Hq. reflexivity.
Qed.

(** X7. The query flow does not catch a failure to read the archive: when
    the file exists and cannot be read, a query for today or for a date that
    parses raises [OSError], and no file has been changed. *)
Theorem query_by_date_flow_unreadable_archive
    (w : world) (line : text) (rest : list text) (content : text) :
  stdin w = line :: rest ->
  text_eqb (lower (strip line)) (lit "today") = true
    \/ parse_date (strip line) <> None ->
  archive (files w) = Some content ->
  refused (files w) ARCHIVE = true ->
  fst (query_by_date_flow w) = Raise OSError
  /\ files (snd (query_by_date_flow w)) = files w.
Proof. apply query_unreadable. Qed.

Lemma query_by_date_flow_unreadable_archive_witness :
  fst (query_by_date_flow unreadable_world) = Raise OSError
  /\ files (snd (query_by_date_flow unreadable_world)) = files unreadable_world.
Proof.
  apply (query_by_date_flow_unreadable_archive unreadable_world
           (lit "2025-11-20") [] (lit "notes")).
  - reflexivity.
  - right. vm_compute. discriminate.
  - reflexivity.
  - reflexivity.
Defined.






(* ================================================================= *)
(** ** Asking for a number *)




(* ================================================================= *)
(** ** Sorting by lower-cased name *)







(* ================================================================= *)
(** ** Reading back the CSV log *)



















(* ================================================================= *)
(** ** The layout of the report *)









(* ================================================================= *)
(** ** The order of names *)


Lemma text_leb_refl (a : text) : text_leb a a = true.
Proof.
  induction a as [|x a IH]; [reflexivity|]. cbn [text_leb].
  rewrite Nat.ltb_irrefl. exact IH.
Qed.











(* ================================================================= *)
(** ** Loops that read a line in every round *)

Lemma loop_rounds_enough {St} (body : St -> io (option St)) :
  reads_a_line body ->
  forall n m s w,
    length (stdin w) < n -> length (stdin w) < m ->
    loop_rounds n body s w = loop_rounds m body s w.
Proof.
  intros Hbody. induction n as [|n IH]; intros m s w Hn Hm; [lia|].
  destruct m as [|m]; [lia|]. cbn [loop_rounds]. unfold bind.
  destruct (body s w) as [[[s'|]|e] w'] eqn:E; try reflexivity.
  pose proof (Hbody _ _ _ _ E) as Hlt. apply IH; lia.
Qed.

Lemma reads_on_steady {A} (m : io A) : steady m -> reads_on m.
Proof.
  intros H w. destruct (m w) as [r w'] eqn:E.
  destruct (H _ _ _ E) as (_ & _ & used & Hu). cbn [snd].
  rewrite Hu, length_app. lia.
Qed.

Lemma reads_on_bind {A B} (m : io A) (k : A -> io B) :
  reads_on m -> (forall a, reads_on (k a)) -> reads_on (bind m k).
Proof.
  intros Hm Hk w. unfold bind. specialize (Hm w).
  destruct (m w) as [[a|e] w1]; cbn [snd] in *; [|exact Hm].
  specialize (Hk a w1). lia.
Qed.

Lemma reads_on_try {A} (m : io A) (h : exn -> io A) :
  reads_on m -> (forall e, reads_on (h e)) -> reads_on (try_except m h).
Proof.
  intros Hm Hh w. unfold try_except. specialize (Hm w).
  destruct (m w) as [[a|e] w1]; cbn [snd] in *; [exact Hm|].
  specialize (Hh e w1). lia.
Qed.

Lemma reads_on_ret {A} (a : A) : reads_on (ret a).
Proof. intro w. apply Nat.le_refl. Qed.

Lemma reads_on_print (msg : text) : reads_on (print msg).
Proof. intro w. apply Nat.le_refl. Qed.

Lemma reads_on_input (prompt : text) : reads_on (input prompt).
Proof. apply reads_on_steady, steady_input. Qed.

Lemma reads_on_on_disk (op : disk -> result disk) : reads_on (on_disk op).
Proof. intro w. unfold on_disk. destruct (op (files w)); apply Nat.le_refl. Qed.

Lemma reads_on_from_disk {A} (op : disk -> result A) : reads_on (from_disk op).
Proof. intro w. unfold from_disk. destruct (op (files w)); apply Nat.le_refl. Qed.

Lemma reads_on_loop {St} (body : St -> io (option St)) :
  (forall s, reads_on (body s)) ->
  forall n s, reads_on (loop_rounds n body s).
Proof.
  intros Hbody. induction n as [|n IH]; intro s; cbn [loop_rounds].
  - intro w. apply Nat.le_refl.
  - apply reads_on_bind; [apply Hbody|].
    intros [s'|]; [apply IH | apply reads_on_ret].
Qed.

Lemma reads_on_while {St} (body : St -> io (option St)) (s : St) :
  (forall s, reads_on (body s)) -> reads_on (while_true body s).
Proof. intros Hbody w. unfold while_true. apply reads_on_loop. exact Hbody. Qed.

(** A body that opens with prints and an [input] has read a line when it
    returns. *)
Lemma reads_after_input {A B} (m0 : io A) (prompt : text) (k : text -> io B)
    (w : world) (b : B) (w' : world) :
  steady m0 ->
  (forall l, reads_on (k l)) ->
  (m0 ;;; l <- input prompt ;; k l) w = (Ok b, w') ->
  length (stdin w') < length (stdin w).
Proof.
  intros H0 Hk H.
  apply (bind_steady_ok _ _ _ _ _ H0) in H as (a & w1 & _ & _ & _ & (u & Hu) & H).
  unfold bind, input in H. destruct (stdin w1) as [|l r] eqn:E; [discriminate|].
  pose proof (Hk l (mkWorld (files w1) r (stdout w1 ++ [prompt]) (clock w1))) as Hl.
  rewrite H in Hl. cbn [snd stdin] in Hl.
  rewrite Hu, length_app. cbn [length]. lia.
Qed.

(* ================================================================= *)
(** ** The roster file *)









Lemma title_nil (s : text) : title s = [] -> s = [].
Proof.
  destruct s as [|c r]; [reflexivity|]. unfold title.
  rewrite title_from_cons. discriminate.
Qed.













(* ================================================================= *)
(** ** The roster editor *)






Lemma read_bulk_shorter (ins : list text) :
  forall new, length (snd (read_bulk ins new)) <= length ins.
Proof.
  induction ins as [|l r IH]; intro new; cbn [read_bulk]; [apply Nat.le_refl|].
  destruct (text_eqb (strip l) []); cbn [snd length]; [lia|].
  specialize (IH (new ++ [title (strip l)])). lia.
Qed.


Lemma reads_on_bulk_input : reads_on bulk_input.
Proof.
  intro w. unfold bulk_input.
  pose proof (read_bulk_shorter (stdin w) []) as H.
  destruct (read_bulk (stdin w) []) as [res ins]. exact H.
Qed.

Lemma steady_print_numbered (roster : list text) :
  forall idx, steady (print_numbered idx roster).
Proof.
  induction roster as [|nm r IH]; intro idx; cbn [print_numbered].
  - apply steady_ret.
  - apply steady_bind; [apply steady_print | intro; apply IH].
Qed.

Lemma steady_view (roster : list text) :
  steady (match roster with
          | [] => print (lit "Roster empty.")
          | _ :: _ => print (lit "Roster:") ;;; print_numbered 1 roster
          end).
Proof.
  destruct roster; [apply steady_print|].
  apply steady_bind; [apply steady_print | intro; apply steady_print_numbered].
Qed.


Lemma reads_on_save_roster (names : list text) : reads_on (save_roster names).
Proof.
  apply reads_on_bind; [apply reads_on_on_disk | intro; apply reads_on_print].
Qed.





Lemma reads_on_editor_tail (roster : list text) (line : text) :
  reads_on
    (let ch := strip line in
     if text_eqb ch (lit "1") then
       l <- input (lit "Enter student name to ADD: ") ;;
       let nm := title (strip l) in
       if text_eqb nm [] then
         print (lit "Empty name ignored.") ;;; ret (Some roster)
       else if existsb (text_eqb nm) roster then
         print (lit "Already exists.") ;;; ret (Some roster)
       else
         print (lit "Added: " ++ nm) ;;;
         ret (Some (sorted_by lower (roster ++ [nm])))
     else if text_eqb ch (lit "2") then
       l <- input (lit "Enter student name to REMOVE: ") ;;
       let nm := title (strip l) in
       if existsb (text_eqb nm) roster then
         print (lit "Removed: " ++ nm) ;;; ret (Some (remove_first nm roster))
       else
         print (lit "Name not found in roster.") ;;; ret (Some roster)
     else if text_eqb ch (lit "3") then
       match roster with
       | [] => print (lit "Roster empty.")
       | _ :: _ => print (lit "Roster:") ;;; print_numbered 1 roster
       end ;;;
       ret (Some roster)
     else if text_eqb ch (lit "4") then
       print (lit "Enter names one per line. Empty line to stop.") ;;;
       new <- bulk_input ;;
       print (lit "Roster replaced.") ;;;
       ret (Some (sorted_by lower (fromkeys new)))
     else if text_eqb ch (lit "5") then save_roster roster ;;; ret None
     else if text_eqb ch (lit "6") then
       print (lit "Roster edit canceled.") ;;; ret None
     else print (lit "Invalid option.") ;;; ret (Some roster)).
Proof.
  cbv zeta.
  assert (Hp : forall (msg : text) (r : option (list text)),
             reads_on (print msg ;;; ret r)).
  { intros msg r. apply reads_on_bind; [apply reads_on_print|].
    intro. apply reads_on_ret. }
  destruct (text_eqb (strip line) (lit "1")).
  { apply reads_on_bind; [apply reads_on_input|]. intro l.
    destruct (text_eqb (title (strip l)) []); [apply Hp|].
    destruct (existsb (text_eqb (title (strip l))) roster); apply Hp. }
  destruct (text_eqb (strip line) (lit "2")).
  { apply reads_on_bind; [apply reads_on_input|]. intro l.
    destruct (existsb (text_eqb (title (strip l))) roster); apply Hp. }
  destruct (text_eqb (strip line) (lit "3")).
  { apply reads_on_bind; [apply reads_on_steady, steady_view|].
    intro. apply reads_on_ret. }
  destruct (text_eqb (strip line) (lit "4")).
  { apply reads_on_bind; [apply reads_on_print|]. intros _.
    apply reads_on_bind; [apply reads_on_bulk_input|]. intro new. apply Hp. }
  destruct (text_eqb (strip line) (lit "5")).
  { apply reads_on_bind; [apply reads_on_save_roster|].
    intro. apply reads_on_ret. }
  destruct (text_eqb (strip line) (lit "6")); apply Hp.
Qed.


Lemma reads_on_editor_round (roster : list text) : reads_on (editor_round roster).
Proof.
  unfold editor_round. apply reads_on_bind; [apply reads_on_print|]. intros _.
  apply reads_on_bind; [apply reads_on_input|]. intro line.
  apply reads_on_editor_tail.
Qed.




(* ================================================================= *)
(** ** The master roster *)




(* ================================================================= *)
(** ** From the recording to the report *)







(* ================================================================= *)
(** ** The main menu *)

Lemma reads_on_record_entries (todo : nat) :
  forall i att, reads_on (record_entries todo i att).
Proof.
  induction todo as [|todo IH]; intros i att; cbn [record_entries].
  - apply reads_on_ret.
  - apply reads_on_bind; [apply reads_on_steady, steady_ask|]. intro name.
    apply reads_on_bind; [apply reads_on_steady, steady_ask|]. intro t. apply IH.
Qed.

Lemma reads_on_guarded (op : disk -> result disk) (m1 : text) (m2 : exn -> text) :
  reads_on (try_except (on_disk op ;;; print m1) (fun e => print (m2 e))).
Proof.
  apply reads_on_try.
  - apply reads_on_bind; [apply reads_on_on_disk | intro; apply reads_on_print].
  - intro e. apply reads_on_print.
Qed.

Lemma reads_on_record_attendance_flow : reads_on record_attendance_flow.
Proof.
  unfold record_attendance_flow.
  apply reads_on_bind; [apply reads_on_print|]. intros _.
  apply reads_on_bind; [apply reads_on_input|]. intro line.
  apply reads_on_bind; [apply reads_on_steady, steady_for_date|]. intro for_date.
  apply reads_on_bind; [apply reads_on_steady, steady_ask|]. intro count.
  apply reads_on_bind; [apply reads_on_record_entries|]. intro attendance.
  apply reads_on_bind; [apply reads_on_print|]. intros _.
  apply reads_on_bind; [apply reads_on_print|]. intros _.
  apply reads_on_bind; [apply reads_on_print|]. intros _.
  apply reads_on_bind; [apply reads_on_steady, steady_print_all|]. intros _.
  apply reads_on_bind; [apply reads_on_print|]. intros _.
  apply reads_on_bind; [apply reads_on_print|]. intros _.
  apply reads_on_bind; [apply reads_on_steady, steady_ask|]. intro total.
  apply reads_on_bind; [apply reads_on_print|]. intros _.
  apply reads_on_bind; [apply reads_on_print|]. intros _.
  apply reads_on_bind; [apply reads_on_steady, steady_get_now|]. intro now.
  apply reads_on_bind; [apply reads_on_guarded|]. intros _.
  apply reads_on_bind; [apply reads_on_steady, steady_ask_yes_no|].
  intros [|]; [apply reads_on_guarded | apply reads_on_ret].
Qed.

Lemma reads_on_print_found (iso : text) (sections : list text) :
  forall idx, reads_on (print_found idx iso sections).
Proof.
  induction sections as [|sec r IH]; intro idx; cbn [print_found].
  - apply reads_on_ret.
  - apply reads_on_bind; [apply reads_on_print|]. intros _.
    apply reads_on_bind; [apply reads_on_print|]. intros _. apply IH.
Qed.

Lemma reads_on_query_sections (target_date : date) :
  reads_on (query_sections target_date).
Proof.
  unfold query_sections. apply reads_on_bind; [apply reads_on_from_disk|].
  intros [|sec r]; [apply reads_on_print|].
  apply reads_on_bind; [apply reads_on_print_found|]. intros _.
  apply reads_on_bind; [apply reads_on_steady, steady_ask_yes_no|].
  intros [|]; [apply reads_on_guarded | apply reads_on_print].
Qed.

Lemma reads_on_query_by_date_flow : reads_on query_by_date_flow.
Proof.
  unfold query_by_date_flow.
  apply reads_on_bind; [apply reads_on_print|]. intros _.
  apply reads_on_bind; [apply reads_on_input|]. intro line.
  destruct (text_eqb (lower (strip line)) (lit "today")).
  - apply reads_on_bind; [apply reads_on_steady, steady_get_today|].
    intro d. apply reads_on_query_sections.
  - destruct (parse_date (strip line));
      [apply reads_on_query_sections | apply reads_on_print].
Qed.

Lemma reads_on_interactive_roster_editor : reads_on interactive_roster_editor.
Proof.
  unfold interactive_roster_editor.
  apply reads_on_bind; [apply reads_on_print|]. intros _.
  apply reads_on_bind; [apply reads_on_from_disk|]. intro roster.
  apply reads_on_bind; [apply reads_on_print|]. intros _.
  apply reads_on_bind.
  { destruct roster; [apply reads_on_ret | apply reads_on_print]. }
  intros _. apply reads_on_while. apply reads_on_editor_round.
Qed.

Lemma reads_on_make_colored_pdf (ordered_dates roster : list text)
    (per_date_map : dict (dict text)) :
  reads_on (make_colored_pdf ordered_dates roster per_date_map).
Proof.
  unfold make_colored_pdf.
  apply reads_on_bind; [apply reads_on_steady, steady_get_now|]. intro now.
  apply reads_on_bind; [apply reads_on_on_disk|]. intros _.
  destruct ordered_dates; [apply reads_on_print|].
  destruct roster; apply reads_on_print.
Qed.

Lemma reads_on_generate_full_pdf_flow : reads_on generate_full_pdf_flow.
Proof.
  unfold generate_full_pdf_flow.
  apply reads_on_bind; [apply reads_on_print|]. intros _.
  apply reads_on_bind; [apply reads_on_from_disk|]. intro per_date.
  apply reads_on_bind.
  { destruct per_date; [apply reads_on_from_disk | apply reads_on_ret]. }
  intros [|kv m]; [apply reads_on_print|].
  apply reads_on_bind; [apply reads_on_from_disk|].
  intros [[dates roster] data]. apply reads_on_make_colored_pdf.
Qed.

Lemma reads_on_menu_tail (line : text) :
  reads_on
    (let choice := strip line in
     if text_eqb choice (lit "1") then record_attendance_flow ;;; ret (Some tt)
     else if text_eqb choice (lit "2") then query_by_date_flow ;;; ret (Some tt)
     else if text_eqb choice (lit "3") then
       interactive_roster_editor ;;; ret (Some tt)
     else if text_eqb choice (lit "4") then generate_full_pdf_flow ;;; ret (Some tt)
     else if text_eqb choice (lit "5") then print (lit "Goodbye!") ;;; ret None
     else print (lit "Invalid choice. Please choose 1-5.") ;;; ret (Some tt)).
Proof.
  cbv zeta.
  assert (Hk : forall (m : io unit) (r : option unit),
             reads_on m -> reads_on (m ;;; ret r)).
  { intros m r Hm. apply reads_on_bind; [exact Hm | intro; apply reads_on_ret]. }
  destruct (text_eqb (strip line) (lit "1"));
    [apply Hk, reads_on_record_attendance_flow|].
  destruct (text_eqb (strip line) (lit "2"));
    [apply Hk, reads_on_query_by_date_flow|].
  destruct (text_eqb (strip line) (lit "3"));
    [apply Hk, reads_on_interactive_roster_editor|].
  destruct (text_eqb (strip line) (lit "4"));
    [apply Hk, reads_on_generate_full_pdf_flow|].
  destruct (text_eqb (strip line) (lit "5")); apply Hk, reads_on_print.
Qed.

Lemma menu_round_reads : reads_a_line menu_round.
Proof.
  intros u w u' w' H. unfold menu_round in H.
  apply (reads_after_input _ _ _ _ _ _ (steady_print_all menu_lines)
           reads_on_menu_tail H).
Qed.

Lemma menu_round_break (w w1 : world) :
  menu_round tt w = (Ok None, w1) ->
  exists out, stdout w1 = out ++ [lit "Goodbye!"].
Proof.
  intro H. unfold menu_round in H.
  apply bind_ok in H as (u0 & v0 & _ & H).
  apply bind_ok in H as (line & v1 & _ & H). cbv zeta in H.
  assert (Hk : forall (m : io unit) v v',
             (m ;;; ret (Some tt)) v = (Ok None, v') -> False).
  { intros m v v' Hm. apply bind_ok in Hm as (u & v2 & _ & Hm). discriminate. }
  destruct (text_eqb (strip line) (lit "1")); [destruct (Hk _ _ _ H)|].
  destruct (text_eqb (strip line) (lit "2")); [destruct (Hk _ _ _ H)|].
  destruct (text_eqb (strip line) (lit "3")); [destruct (Hk _ _ _ H)|].
  destruct (text_eqb (strip line) (lit "4")); [destruct (Hk _ _ _ H)|].
  destruct (text_eqb (strip line) (lit "5")); [|destruct (Hk _ _ _ H)].
  unfold bind, print, ret in H. injection H as <-.
  exists (stdout v1). reflexivity.
Qed.

Lemma menu_loop_break (n : nat) :
  forall w w',
    loop_rounds n menu_round tt w = (Ok tt, w') ->
    exists out, stdout w' = out ++ [lit "Goodbye!"].
Proof.
  induction n as [|n IH]; intros w w' H; cbn [loop_rounds] in H.
  - discriminate.
  - apply bind_ok in H as (r & w1 & Hround & H). destruct r as [[]|].
    + exact (IH _ _ H).
    + injection H as <-. exact (menu_round_break _ _ Hround).
Qed.

(** X20. The menu ends normally in one way only, by the choice 5: when
    [main_menu] returns, the last line it printed is the farewell.  The loop
    ends within as many rounds as there are lines of input, plus one. *)
Theorem main_menu_returns_by_exit (w w' : world) :
  main_menu w = (Ok tt, w') ->
  (exists out, stdout w' = out ++ [lit "Goodbye!"])
  /\ forall v more,
       loop_rounds (S (length (stdin v)) + more) menu_round tt v
       = while_true menu_round tt v.
Proof.
  intro H. split.
  - unfold main_menu in H. apply bind_ok in H as (u & v & _ & H).
    unfold while_true in H. exact (menu_loop_break _ _ _ H).
  - intros v more. unfold while_true.
    apply (loop_rounds_enough menu_round menu_round_reads); lia.
Qed.

Lemma main_menu_returns_by_exit_witness :
  (exists out,
     stdout (snd (main_menu
                    (mkWorld fresh_disk (map lit [ "9"; "2"; "2025-11-20"; " 5 "; "1" ]%string)
                       [] demo_now)))
     = out ++ [lit "Goodbye!"])
  /\ forall v more,
       loop_rounds (S (length (stdin v)) + more) menu_round tt v
       = while_true menu_round tt v.
Proof.
  apply (main_menu_returns_by_exit
           (mkWorld fresh_disk (map lit [ "9"; "2"; "2025-11-20"; " 5 "; "1" ]%string)
              [] demo_now)
           (snd (main_menu
                   (mkWorld fresh_disk
                      (map lit [ "9"; "2"; "2025-11-20"; " 5 "; "1" ]%string)
                      [] demo_now)))).
  vm_compute. reflexivity.
Defined.

Lemma bind_raise {A B} (m : io A) (k : A -> io B) (w : world) (e : exn) :
  fst (m w) = Raise e -> fst (bind m k w) = Raise e.
Proof.
  unfold bind. destruct (m w) as [[a|e'] w1]; cbn [fst]; [discriminate|].
  intros [= ->]. reflexivity.
Qed.

Lemma bind_then {A B} (m : io A) (k : A -> io B) (w w1 : world) (a : A) :
  m w = (Ok a, w1) -> bind m k w = k a w1.
Proof. intro H. unfold bind. rewrite H. reflexivity. Qed.

Lemma print_all_run (msgs : list text) :
  forall w,
    exists out,
      print_all msgs w = (Ok tt, mkWorld (files w) (stdin w) out (clock w)).
Proof.
  induction msgs as [|m r IH]; intro w; cbn [print_all].
  - exists (stdout w). destruct w; reflexivity.
  - unfold bind, print. cbv beta iota.
    destruct (IH (mkWorld (files w) (stdin w) (stdout w ++ [m]) (clock w)))
      as [out E].
    cbn [files stdin stdout clock] in E. exists out. exact E.
Qed.

(** X21. The menu has no handler of its own: when the archive exists and
    cannot be read, the choice 2 with a date that parses, or with today,
    ends [main_menu] with [OSError]. *)
Theorem main_menu_unreadable_archive
    (w : world) (choice line : text) (rest : list text) (content : text) :
  stdin w = choice :: line :: rest ->
  strip choice = lit "2" ->
  text_eqb (lower (strip line)) (lit "today") = true
    \/ parse_date (strip line) <> None ->
  archive (files w) = Some content ->
  refused (files w) ARCHIVE = true ->
  fst (main_menu w) = Raise OSError.
Proof.
  intros Hin Hchoice Hdate Harch Href.
  unfold main_menu. unfold bind at 1. unfold print at 1. cbv beta iota.
  unfold while_true. cbn [files stdin stdout clock length loop_rounds].
  apply bind_raise. unfold menu_round.
  destruct (print_all_run menu_lines
              (mkWorld (files w) (stdin w)
                 (stdout w
                  ++ [lit "Welcome to the Attendance Tracker System (Merged - Full Features)!"])
                 (clock w)))
    as [out E].
  rewrite (bind_then _ _ _ _ _ E). cbn [files stdin stdout clock].
  unfold bind at 1. unfold input. cbn [files stdin stdout clock]. rewrite Hin.
  cbv zeta. rewrite Hchoice.
  change (text_eqb (lit "2") (lit "1")) with false.
  change (text_eqb (lit "2") (lit "2")) with true. cbv iota.
  apply bind_raise.
  apply (query_unreadable _ line rest content); cbn [files stdin];
    assumption || reflexivity.
Qed.

Lemma main_menu_unreadable_archive_witness :
  fst (main_menu demo_menu_world) = Raise OSError.
Proof.
  apply (main_menu_unreadable_archive demo_menu_world (lit " 2 ") (lit "today")
           [lit "5"] (lit "notes")).
  - reflexivity.
  - vm_compute. reflexivity.
  - left. vm_compute. reflexivity.
  - reflexivity.
  - reflexivity.
Defined.

(* ================================================================= *)
(** ** Reading back the archive *)


Lemma str_nat_not_nil (n : nat) : 1 <= length (str_nat n).
Proof.
  destruct (str_nat_last n) as [pre E]. rewrite E, length_app. cbn [length]. lia.
Qed.





Lemma prefix_free_cons (c : ascii) (s : text) :
  prefix_free (c :: s) -> prefix_free s.
Proof. intros H a b E. apply (H (c :: a) b). rewrite E. reflexivity. Qed.







(* ----------------------------------------------------------------- *)
(** *** The lines of a section *)























(* ----------------------------------------------------------------- *)
(** *** The row of a name *)












Lemma startswith_short (a b p : text) :
  length p <= length a -> startswith (a ++ b) p = startswith a p.
Proof.
  revert a. induction p as [|x p IH]; intros a H; [reflexivity|].
  destruct a as [|c a]; [cbn [length] in H; lia|].
  cbn [app]. rewrite !startswith_cons. rewrite IH; [reflexivity|].
  cbn [length] in H. lia.
Qed.


(* ----------------------------------------------------------------- *)
(** *** The lines the reader skips *)

















